(** * diffpr: download the before/after source trees of a pull request

    A shallow embedding of [diffpr.py] and the properties of its
    specification.  Python values are modelled as follows.

    - [str] is [string]; characters are Rocq [ascii] (code points below 256).
    - [bytes] is [list Byte.byte].
    - Exceptions are the constructors of [exn]; a computation is a function
      from the file system to an outcome, the new file system and the list of
      observable events it produced (module [Py]).
    - The file system is a finite map from lexically resolved paths to nodes.
      Paths are identified lexically: links are opaque leaves and are never
      followed.
    - The network, the JSON parser and the tar reader are fields of [Env]. *)

From stdpp Require Import gmap strings list fin_maps.
From Stdlib Require Import Strings.Byte Strings.Ascii Strings.String.

Local Open Scope string_scope.
Local Open Scope list_scope.

(** ** Python string operations *)

Module PyStr.

(** [s.split(sep)] for a one-character separator: never empty. *)
Fixpoint split (sep : ascii) (s : string) : list string :=
  match s with
  | EmptyString => [EmptyString]
  | String c s' =>
      if Ascii.eqb c sep then EmptyString :: split sep s'
      else match split sep s' with
           | [] => [String c EmptyString]
           | h :: t => String c h :: t
           end
  end.

(** [s.startswith(p)] *)
Fixpoint startswith (s p : string) {struct p} : bool :=
  match p with
  | EmptyString => true
  | String c p' =>
      match s with
      | EmptyString => false
      | String d s' => Ascii.eqb d c && startswith s' p'
      end
  end.

(** [s.endswith(p)] for a one-character [p]. *)
Fixpoint endswith_char (s : string) (c : ascii) : bool :=
  match s with
  | EmptyString => false
  | String d EmptyString => Ascii.eqb d c
  | String _ s' => endswith_char s' c
  end.

(** [s[n:]] *)
Fixpoint slice_from (n : nat) (s : string) : string :=
  match n with
  | O => s
  | S n' => match s with
            | EmptyString => EmptyString
            | String _ s' => slice_from n' s'
            end
  end.

(** [s[:n]] *)
Fixpoint slice_to (n : nat) (s : string) : string :=
  match n with
  | O => EmptyString
  | S n' => match s with
            | EmptyString => EmptyString
            | String c s' => String c (slice_to n' s')
            end
  end.

(** [x in l] for a list of strings. *)
Definition contains (x : string) (l : list string) : bool :=
  existsb (String.eqb x) l.

Definition slash : ascii := "/"%char.

End PyStr.

(** ** Paths and the file system *)

Module Fs.

(** What a path names: a regular file with its content, a directory, or a
    symbolic link with its target.  The same type describes the payload of an
    archive member. *)
Inductive Node :=
  | File (content : list byte)
  | Directory
  | Link (target : string).

#[global] Instance byte_eq_dec : EqDecision byte := Byte.byte_eq_dec.

#[global] Instance Node_eq_dec : EqDecision Node.
Proof. solve_decision. Defined.

(** A resolved path: whether it is absolute, and its segments. *)
Definition Path : Type := bool * list string.

(** [os.path.join(a, b)] (posixpath, two arguments). *)
Definition join (a b : string) : string :=
  if PyStr.startswith b "/" then b
  else if String.eqb a "" || PyStr.endswith_char a PyStr.slash then a +:+ b
  else a +:+ "/" +:+ b.

(** One step of lexical path resolution.  Empty and [.] segments are
    dropped; [..] removes the last segment, stays at the root of an
    absolute path and accumulates in front of a relative one. *)
Definition step (abs : bool) (stack : list string) (seg : string) : list string :=
  if String.eqb seg "" || String.eqb seg "." then stack
  else if String.eqb seg ".." then
    match last stack with
    | None => if abs then [] else [".."]
    | Some t => if String.eqb t ".." then stack ++ [".."] else removelast stack
    end
  else stack ++ [seg].

Definition walk (abs : bool) (stack segs : list string) : list string :=
  fold_left (step abs) segs stack.

Definition resolve (p : string) : Path :=
  let abs := PyStr.startswith p "/" in
  (abs, walk abs [] (PyStr.split PyStr.slash p)).

(** [under d k]: [k] is [d] or lies below it. *)
Definition under (d k : Path) : Prop := d.1 = k.1 ∧ d.2 `prefix_of` k.2.

#[global] Instance under_dec d k : Decision (under d k).
Proof. unfold under. apply _. Defined.

(** The non-empty prefixes of a segment list, shortest first: the
    directories on the way to it, and itself. *)
Fixpoint prefixes_from (done todo : list string) : list (list string) :=
  match todo with
  | [] => []
  | s :: todo' => (done ++ [s]) :: prefixes_from (done ++ [s]) todo'
  end.

Definition chain (k : Path) : list Path :=
  (λ q, (k.1, q)) <$> prefixes_from [] k.2.

Definition parent (k : Path) : Path := (k.1, removelast k.2).

(** The root and the working directory always exist and are not stored. *)
Definition node_at (fs : gmap Path Node) (k : Path) : option Node :=
  match k.2 with
  | [] => Some Directory
  | _ => fs !! k
  end.

(** Every entry lies in directories that exist. *)
Definition wf (fs : gmap Path Node) : Prop :=
  map_Forall (λ k _, Forall (λ q, fs !! q = Some Directory) (chain (parent k))) fs.

#[global] Instance wf_dec fs : Decision (wf fs).
Proof. unfold wf. apply _. Defined.

Definition ok_for_dir (fs : gmap Path Node) (q : Path) : bool :=
  match fs !! q with
  | None | Some Directory => true
  | Some _ => false
  end.

(** The effect of [os.makedirs(p, exist_ok=True)] on the directory named by
    [k]: every missing directory on the way is created; a file or link in
    the way is an error. *)
Definition mkdirs (k : Path) (fs : gmap Path Node) : option (gmap Path Node) :=
  if forallb (ok_for_dir fs) (chain k)
  then Some (foldr (λ q m, <[q := Directory]> m) fs (chain k))
  else None.

(** The effect of [shutil.rmtree] on a directory: it and everything below
    it disappear. *)
Definition remove_tree (d : Path) (fs : gmap Path Node) : gmap Path Node :=
  filter (λ kv, ¬ under d kv.1) fs.

(** The effect of creating one archive member at [k], once the directories
    above it exist.  A directory member leaves an existing directory alone;
    a file or link member replaces an existing file or link; anything else
    is an error. *)
Definition create (k : Path) (n : Node) (fs : gmap Path Node) : option (gmap Path Node) :=
  match n, node_at fs k with
  | Directory, None => Some (<[k := Directory]> fs)
  | Directory, Some Directory => Some fs
  | Directory, Some _ => None
  | _, Some Directory => None
  | _, _ => Some (<[k := n]> fs)
  end.

End Fs.

(** ** Computations: exceptions, file-system state and observable events *)

Module Py.

(** The exceptions the program can end with.  [ValueError] stands for
    [json.JSONDecodeError] and [UnicodeDecodeError], [URLError] also for its
    subclass [HTTPError] (any non-2xx status), [ReadError] for the errors of
    [tarfile] and [gzip] on a damaged stream, [OSError] for every error of
    the file system. *)
Inductive exn :=
  | SystemExit (code : Z)
  | IndexError
  | KeyError
  | TypeError
  | ValueError
  | URLError
  | ReadError
  | OSError.

Inductive outcome (A : Type) :=
  | Ok (a : A)
  | Raise (e : exn).
Arguments Ok {A} a.
Arguments Raise {A} e.

(** Calls that leave the process or change the file system, and output. *)
Inductive Event :=
  | EvStdout (line : string)
  | EvStderr (text : string)
  | EvHttpGet (url accept : string)
  | EvRmtree (path : string)
  | EvMakedirs (path : string)
  | EvExtract (name dest : string).

Abbreviation FS := (gmap Fs.Path Fs.Node).

(** Each event is logged with the file system as it was when it happened. *)
Definition Log : Type := list (Event * FS).

Definition M (A : Type) : Type := FS → outcome A * FS * Log.

Definition ret {A} (a : A) : M A := λ fs, (Ok a, fs, []).

Definition raise {A} (e : exn) : M A := λ fs, (Raise e, fs, []).

Definition bind {A B} (m : M A) (f : A → M B) : M B :=
  λ fs,
    match m fs with
    | (Ok a, fs1, l1) =>
        match f a fs1 with
        | (r, fs2, l2) => (r, fs2, l1 ++ l2)
        end
    | (Raise e, fs1, l1) => (Raise e, fs1, l1)
    end.

Definition emit (e : Event) : M unit := λ fs, (Ok tt, fs, [(e, fs)]).

(** A change of the file system that may fail with [OSError]. *)
Definition update (f : FS → option FS) : M unit :=
  λ fs,
    match f fs with
    | Some fs' => (Ok tt, fs', [])
    | None => (Raise OSError, fs, [])
    end.

(** [for x in xs: body(x)] *)
Fixpoint for_each {A} (xs : list A) (body : A → M unit) : M unit :=
  match xs with
  | [] => ret tt
  | x :: xs' => bind (body x) (λ _, for_each xs' body)
  end.

Definition result {A} (x : outcome A * FS * Log) : outcome A := x.1.1.
Definition final_fs {A} (x : outcome A * FS * Log) : FS := x.1.2.
Definition log_of {A} (x : outcome A * FS * Log) : Log := x.2.
Definition events {A} (x : outcome A * FS * Log) : list Event := fst <$> x.2.

End Py.

Import Py.

Notation "'let*' x ':=' m 'in' k" := (bind m (λ x, k))
  (at level 10, x name, m at level 100, k at level 200, only parsing).
Notation "m >> k" := (bind m (λ _, k))
  (at level 100, k at level 200, right associativity, only parsing).

(** ** The world outside the program *)

(** One archive member as [tarfile] presents it: its path and what it is. *)
Record TarInfo := {
  name : string;
  node : Fs.Node;
}.

(** A parsed JSON document as [json.loads] returns it. *)
#[local] Set Warnings "-register-all".
Inductive json :=
  | JNull
  | JBool (b : bool)
  | JNum (literal : string)
  | JStr (s : string)
  | JArr (items : list json)
  | JObj (fields : list (string * json)).

Record Env := {
  (** [urllib.request.urlopen(req).read()]: the body, or [None] when the
      request fails or the status is not 2xx *)
  urlopen : string → option (list byte);
  (** [json.loads]: [None] when the text is not JSON *)
  json_loads : list byte → option json;
  (** [tarfile.open(fileobj=..., mode="r:gz").getmembers()]: [None] when the
      bytes are not a gzip-compressed tar stream *)
  tar_getmembers : list byte → option (list TarInfo);
  (** [str(v)] for a JSON value that is not a string *)
  py_repr : json → string;
}.

(** ** The program *)

Section Program.

Context (env : Env).

Definition accept_header : string := "application/vnd.github.v3+json".

(** [print(line)] writes to standard output. *)
Definition print (line : string) : M unit := emit (EvStdout line).

(** [urllib.request.urlopen(Request(url, headers={"Accept": ...}))] followed
    by [resp.read()]. *)
Definition urlopen_read (url : string) : M (list byte) :=
  emit (EvHttpGet url accept_header) >>
  match urlopen env url with
  | Some data => ret data
  | None => raise URLError
  end.

(** [os.makedirs(p, exist_ok=True)] *)
Definition os_makedirs (p : string) : M unit :=
  emit (EvMakedirs p) >>
  if String.eqb p "" then raise OSError
  else update (Fs.mkdirs (Fs.resolve p)).

(** [os.path.exists(p)]; a link counts as existing. *)
Definition os_path_exists (p : string) : M bool :=
  λ fs, (Ok (bool_decide (is_Some (Fs.node_at fs (Fs.resolve p)))), fs, []).

(** [shutil.rmtree(p)]: an error unless [p] is a directory. *)
Definition shutil_rmtree (p : string) : M unit :=
  emit (EvRmtree p) >>
  update (λ fs,
    match Fs.node_at fs (Fs.resolve p) with
    | Some Fs.Directory => Some (Fs.remove_tree (Fs.resolve p) fs)
    | _ => None
    end).

(** [tar.extract(member, path)]: the member is created at
    [os.path.join(path, member.name)], after the directories above it. *)
Definition tar_extract (member : TarInfo) (path : string) : M unit :=
  let target := Fs.resolve (Fs.join path (name member)) in
  emit (EvExtract (name member) path) >>
  update (Fs.mkdirs (Fs.parent target)) >>
  update (Fs.create target (node member)).

Definition fetch_json (url : string) : M json :=
  let* body := urlopen_read url in
  match json_loads env body with
  | Some v => ret v
  | None => raise ValueError
  end.

(** Lines 35-38: the member name without the top-level directory. *)
Definition strip (prefix n : string) : string :=
  if PyStr.startswith n (prefix +:+ "/")
  then PyStr.slice_from (String.length prefix + 1) n
  else PyStr.slice_from (String.length prefix) n.

(** Line 39: the condition under which a member is passed over. *)
Definition rejected (n : string) : bool :=
  String.eqb n "" || PyStr.startswith n "/"
  || PyStr.contains ".." (PyStr.split PyStr.slash n).

(** Lines 30-41: the loop over [tar.getmembers()]; [prefix] is [None] until
    the first member has been seen. *)
Fixpoint extract_members (dest_dir : string) (prefix : option string)
    (members : list TarInfo) : M unit :=
  match members with
  | [] => ret tt
  | member :: rest =>
      let prefix :=
        match prefix with
        | None => hd "" (PyStr.split PyStr.slash (name member))
        | Some p => p
        end in
      let member := {| name := strip prefix (name member); node := node member |} in
      if rejected (name member)
      then extract_members dest_dir (Some prefix) rest
      else tar_extract member dest_dir >>
           extract_members dest_dir (Some prefix) rest
  end.

Definition download_and_extract (tarball_url dest_dir : string) : M unit :=
  let* data := urlopen_read tarball_url in
  os_makedirs dest_dir >>
  match tar_getmembers env data with
  | None => raise ReadError
  | Some members => extract_members dest_dir None members
  end.

Definition owner : string := "kstost".
Definition repo : string := "cokacdir".

Fixpoint lookup_field (key : string) (fields : list (string * json)) : option json :=
  match fields with
  | [] => None
  | (k, v) :: fields' => if String.eqb k key then Some v else lookup_field key fields'
  end.

(** [v[key]] for a string key. *)
Definition getitem (v : json) (key : string) : M json :=
  match v with
  | JObj fields =>
      match lookup_field key fields with
      | Some x => ret x
      | None => raise KeyError
      end
  | _ => raise TypeError
  end.

(** [v[:10]] *)
Definition slice10 (v : json) : M json :=
  match v with
  | JStr s => ret (JStr (PyStr.slice_to 10 s))
  | JArr items => ret (JArr (take 10 items))
  | _ => raise TypeError
  end.

(** [f"{v}"] *)
Definition format (v : json) : string :=
  match v with
  | JStr s => s
  | _ => py_repr env v
  end.

Definition pulls_url (pr_number : string) : string :=
  "https://api.github.com/repos/" +:+ owner +:+ "/" +:+ repo +:+ "/pulls/" +:+ pr_number.

Definition tarball_url (sha : json) : string :=
  "https://api.github.com/repos/" +:+ owner +:+ "/" +:+ repo +:+ "/tarball/" +:+ format sha.

Definition usage_line (argv0 : string) : string :=
  "Usage: " +:+ argv0 +:+ " <pr_number> <output_dir>".

(** Lines 68-70. *)
Definition clean (dirs : list string) : M unit :=
  for_each dirs (λ d,
    let* present := os_path_exists d in
    if present then shutil_rmtree d else ret tt).

Definition main (argv : list string) : M unit :=
  if negb (Nat.eqb (List.length argv) 3) then
    match argv with
    | [] => raise IndexError
    | argv0 :: _ => print (usage_line argv0) >> raise (SystemExit 1)
    end
  else
    let pr_number := nth 1 argv "" in
    let output_dir := nth 2 argv "" in
    let pr_url := pulls_url pr_number in
    print ("Fetching PR #" +:+ pr_number +:+ " info...") >>
    let* pr_info := fetch_json pr_url in
    let* base := getitem pr_info "base" in
    let* base_sha := getitem base "sha" in
    let* head := getitem pr_info "head" in
    let* head_sha := getitem head "sha" in
    let* base10 := slice10 base_sha in
    let* head10 := slice10 head_sha in
    print ("Base SHA: " +:+ format base10 +:+ "  Head SHA: " +:+ format head10) >>
    let before_dir := Fs.join output_dir "before" in
    let after_dir := Fs.join output_dir "after" in
    clean [before_dir; after_dir] >>
    let tarball_base := tarball_url base_sha in
    let tarball_head := tarball_url head_sha in
    print "Downloading before (base)..." >>
    download_and_extract tarball_base before_dir >>
    print "Downloading after (head)..." >>
    download_and_extract tarball_head after_dir >>
    print ("Done. Files saved to " +:+ before_dir +:+ "/ and " +:+ after_dir +:+ "/").

Definition exn_name (e : exn) : string :=
  match e with
  | SystemExit _ => "SystemExit"
  | IndexError => "IndexError"
  | KeyError => "KeyError"
  | TypeError => "TypeError"
  | ValueError => "ValueError"
  | URLError => "urllib.error.URLError"
  | ReadError => "tarfile.ReadError"
  | OSError => "OSError"
  end.

(** Lines 85-86 under the interpreter: the exit status of the process.  An
    uncaught exception other than [SystemExit] is reported on standard error
    and gives status 1. *)
Definition run_script (argv : list string) (fs : FS) : Z * FS * Log :=
  match main argv fs with
  | (Ok _, fs', l) => (0%Z, fs', l)
  | (Raise (SystemExit code), fs', l) => (code, fs', l)
  | (Raise e, fs', l) =>
      (1%Z, fs', l ++ [(EvStderr ("Traceback (most recent call last): " +:+ exn_name e), fs')])
  end.

End Program.

(** ** Notions used to state the properties *)



(** The wrapper prefix the loop settles on at its first member. *)
Definition wrapper_prefix (members : list TarInfo) : string :=
  match members with
  | [] => ""
  | m :: _ => hd "" (PyStr.split PyStr.slash (name m))
  end.

Definition rewritten (prefix : string) (m : TarInfo) : TarInfo :=
  {| name := strip prefix (name m); node := node m |}.

(** The members that get past line 39, renamed, in archive order. *)
Definition survivors (prefix : string) (members : list TarInfo) : list TarInfo :=
  List.filter (λ m, negb (rejected (name m))) (rewritten prefix <$> members).


(** The extraction calls for a list of members, in order. *)
Definition extract_events (dest : string) (ms : list TarInfo) : list Event :=
  (λ m, EvExtract (name m) dest) <$> ms.

(** The directory [d] and the directories above it exist. *)
Definition dirs_exist (d : Fs.Path) (fs : FS) : Prop :=
  ∀ q, q ∈ Fs.chain d → fs !! q = Some Fs.Directory.



(** The HTTP requests of a log, each with the file system at that moment. *)
Definition downloads (l : Log) : list (string * FS) :=
  omap (λ e, match e.1 with EvHttpGet url _ => Some (url, e.2) | _ => None end) l.

(** The field [key] of [v], if [v] is an object that has it. *)
Definition json_field (v : json) (key : string) : option json :=
  match v with
  | JObj fields => lookup_field key fields
  | _ => None
  end.

(** The value at [which.sha], if present. *)
Definition sha_field (pr_info : json) (which : string) : option json :=
  match json_field pr_info which with
  | Some v => json_field v "sha"
  | None => None
  end.

Section Phases.

Context (env : Env).

(** Lines 56-62 of [main]: the two commit identifiers. *)
Definition fetch_shas (pr_number : string) : M (json * json) :=
  print ("Fetching PR #" +:+ pr_number +:+ " info...") >>
  let* pr_info := fetch_json env (pulls_url pr_number) in
  let* base := getitem pr_info "base" in
  let* base_sha := getitem base "sha" in
  let* head := getitem pr_info "head" in
  let* head_sha := getitem head "sha" in
  let* base10 := slice10 base_sha in
  let* head10 := slice10 head_sha in
  print ("Base SHA: " +:+ format env base10 +:+ "  Head SHA: " +:+ format env head10) >>
  ret (base_sha, head_sha).

(** Lines 76-82 of [main]. *)
Definition materialize (base_sha head_sha : json) (before_dir after_dir : string) : M unit :=
  print "Downloading before (base)..." >>
  download_and_extract env (tarball_url env base_sha) before_dir >>
  print "Downloading after (head)..." >>
  download_and_extract env (tarball_url env head_sha) after_dir >>
  print ("Done. Files saved to " +:+ before_dir +:+ "/ and " +:+ after_dir +:+ "/").

(** Lines 64-82 of [main]. *)
Definition after_metadata (output_dir : string) (base_sha head_sha : json) : M unit :=
  let before_dir := Fs.join output_dir "before" in
  let after_dir := Fs.join output_dir "after" in
  clean [before_dir; after_dir] >>
  materialize base_sha head_sha before_dir after_dir.

End Phases.

(** The effect of lines 69-70 on the directory [k]: nothing when it is
    absent, its removal when it is a directory, an error otherwise. *)
Definition clean_fs (k : Fs.Path) (fs : FS) : option FS :=
  match fs !! k with
  | None => Some fs
  | Some Fs.Directory => Some (Fs.remove_tree k fs)
  | Some _ => None
  end.

(** The entry [name] of the directory [o]. *)
Definition entry (o : Fs.Path) (name : string) : Fs.Path := (o.1, o.2 ++ [name]).

Definition http_of (e : Event) : option string :=
  match e with
  | EvHttpGet url _ => Some url
  | _ => None
  end.

(** A computation that never touches the file system: its outcome and its
    events do not depend on it, and its HTTP requests are [reqs]. *)
Definition fs_free {A} (reqs : list string) (m : M A) : Prop :=
  ∃ r evs, (∀ fs, m fs = (r, fs, (λ e, (e, fs)) <$> evs)) ∧ omap http_of evs = reqs.

Definition http_requests (l : Log) : list string :=
  omap (λ e, match e.1 with EvHttpGet url _ => Some url | _ => None end) l.

Definition stderr_lines (l : Log) : list string :=
  omap (λ e, match e.1 with EvStderr t => Some t | _ => None end) l.

Definition stdout_lines (l : Log) : list string :=
  omap (λ e, match e.1 with EvStdout t => Some t | _ => None end) l.

(** ** A concrete world, for examples *)

Module Demo.

Definition base_sha : string := "aaaa111111aaaa".
Definition head_sha : string := "bbbb222222bbbb".

Definition pr_info : json :=
  JObj [("number", JNum "42");
        ("base", JObj [("sha", JStr base_sha)]);
        ("head", JObj [("sha", JStr head_sha)])].

Definition member (n : string) (x : Fs.Node) : TarInfo := {| name := n; node := x |}.

Definition base_archive : list TarInfo :=
  [ member "pkgname-aaaa111" Fs.Directory;
    member "pkgname-aaaa111/README" (Fs.File [x52; x31]);
    member "pkgname-aaaa111/src" Fs.Directory;
    member "pkgname-aaaa111/src/app.ext" (Fs.File [x61]);
    member "pkgname-aaaa111/../../etc/passwd" (Fs.File [x78]) ].

Definition head_archive : list TarInfo :=
  [ member "pkgname-bbbb222" Fs.Directory;
    member "pkgname-bbbb222/README" (Fs.File [x52; x32]);
    member "pkgname-bbbb222/src/app.ext" (Fs.File [x62]);
    member "pkgname-bbbb222/docs" (Fs.Link "README") ].


(** An archive whose second member needs a directory where the first put a
    file. *)
Definition conflict_archive : list TarInfo :=
  [ member "pkg/a" (Fs.File [x61]);
    member "pkg/a/b" (Fs.File [x62]) ].

Definition conflict_url : string := "https://example.invalid/conflict.tar.gz".
Definition missing_url : string := "https://example.invalid/missing.tar.gz".
Definition base_url : string :=
  "https://api.github.com/repos/kstost/cokacdir/tarball/aaaa111111aaaa".

Definition env : Env := {|
  urlopen url :=
    if String.eqb url (pulls_url "42") then Some [x01]
    else if String.eqb url conflict_url then Some [x04]
    else if String.eqb url (pulls_url "7") then Some [x00]
    else if String.eqb url ("https://api.github.com/repos/kstost/cokacdir/tarball/" +:+ base_sha) then Some [x02]
    else if String.eqb url ("https://api.github.com/repos/kstost/cokacdir/tarball/" +:+ head_sha) then Some [x03]
    else None;
  json_loads body :=
    if decide (body = [x01]) then Some pr_info else None;
  tar_getmembers body :=
    if decide (body = [x02]) then Some base_archive
    else if decide (body = [x03]) then Some head_archive
    else if decide (body = [x04]) then Some conflict_archive
    else None;
  py_repr _ := "?";
|}.

(** A tree left by an earlier run, with a file the new archives lack. *)
Definition stale_fs : FS :=
  <[(false, ["out"]) := Fs.Directory]>
  (<[(false, ["out"; "before"]) := Fs.Directory]>
  (<[(false, ["out"; "before"; "old.txt"]) := Fs.File [x6f]]>
  (<[(false, ["out"; "after"]) := Fs.Directory]>
  (<[(false, ["out"; "after"; "old.txt"]) := Fs.File [x6f]]> ∅)))).

End Demo.

(** ** Further notions *)

(** [m] keeps the property [P] of the file system, however it ends. *)
Definition keeps (P : FS → Prop) {A} (m : M A) : Prop :=
  ∀ fs, P fs → P (final_fs (m fs)).

(** Every event of every run of [m] satisfies [P]. *)
Definition all_events (P : Event → Prop) {A} (m : M A) : Prop :=
  ∀ fs ev, ev ∈ log_of (m fs) → P ev.1.

(** A request carries the versioned JSON media type. *)
Definition header_ok (e : Event) : Prop :=
  match e with
  | EvHttpGet _ accept => accept = "application/vnd.github.v3+json"
  | _ => True
  end.


(** The pull request [pr] resolves to the commit identifiers [b] and [h],
    both strings. *)
Definition metadata (env : Env) (pr b h : string) : Prop :=
  ∃ body pr_info,
    urlopen env (pulls_url pr) = Some body
    ∧ json_loads env body = Some pr_info
    ∧ sha_field pr_info "base" = Some (JStr b)
    ∧ sha_field pr_info "head" = Some (JStr h).

(** [v[:10]] is defined: [v] is a string or an array. *)
Definition sliceable (v : json) : bool :=
  match v with
  | JStr _ | JArr _ => true
  | _ => false
  end.

(** [v] is [None], a [bool], an [int] or a [float]: a value that supports
    no subscript at all. *)
Definition scalar (v : json) : bool :=
  match v with
  | JNull | JBool _ | JNum _ => true
  | _ => false
  end.

Definition stdout_of (e : Event) : option string :=
  match e with
  | EvStdout t => Some t
  | _ => None
  end.


(** A world in which the head tarball cannot be fetched. *)
Module Demo2.

Definition pr_info : json :=
  JObj [("base", JObj [("sha", JStr Demo.base_sha)]);
        ("head", JObj [("sha", JStr "cccc333333cccc")])].


(** An archive that holds its wrapper directory and a member that points
    out of it, and nothing else. *)
Definition wrapper_only : list TarInfo :=
  [ Demo.member "pkg" Fs.Directory;
    Demo.member "pkg/" Fs.Directory;
    Demo.member "pkg/../x" (Fs.File [x78]) ].

Definition wrapper_url : string := "https://example.invalid/wrapper.tar.gz".

Definition env : Env := {|
  urlopen url :=
    if String.eqb url (pulls_url "9") then Some [x05]
    else if String.eqb url (pulls_url "10") then Some [x06]
    else if String.eqb url Demo.base_url then Some [x02]
    else if String.eqb url wrapper_url then Some [x07]
    else None;
  json_loads body :=
    if decide (body = [x05]) then Some pr_info
    else if decide (body = [x06])
    then Some (JObj [("base", JObj [("sha", JNum "7")]);
                     ("head", JObj [("sha", JStr Demo.head_sha)])])
    else None;
  tar_getmembers body :=
    if decide (body = [x02]) then Some Demo.base_archive
    else if decide (body = [x07]) then Some wrapper_only
    else None;
  py_repr _ := "?";
|}.



End Demo2.

(** * Properties *)

(** ** Examples *)

Example split_two : PyStr.split PyStr.slash "abc123-repo/src/main.ext" = ["abc123-repo"; "src"; "main.ext"].
Proof. reflexivity. Qed.

Example split_empty : PyStr.split PyStr.slash "" = [""].
Proof. reflexivity. Qed.

Example split_root : PyStr.split PyStr.slash "/" = [""; ""].
Proof. reflexivity. Qed.

Example resolve_rel : Fs.resolve "out/before/src/../a.txt" = (false, ["out"; "before"; "a.txt"]).
Proof. reflexivity. Qed.

Example resolve_escape : Fs.resolve (Fs.join "out/before" "../../etc/passwd") = (false, ["etc"; "passwd"]).
Proof. reflexivity. Qed.

Example resolve_abs : Fs.resolve "/tmp//x/./y/" = (true, ["tmp"; "x"; "y"]).
Proof. reflexivity. Qed.

Example join_abs : Fs.join "out" "/etc/passwd" = "/etc/passwd".
Proof. reflexivity. Qed.

Example chain_ex : Fs.chain (false, ["a"; "b"]) = [(false, ["a"]); (false, ["a"; "b"])].
Proof. reflexivity. Qed.

Example mkdirs_ex :
  (λ m, m !! (false, ["a"])) <$> Fs.mkdirs (false, ["a"; "b"]) ∅ = Some (Some Fs.Directory).
Proof. vm_compute. reflexivity. Qed.

Example remove_tree_ex :
  Fs.remove_tree (false, ["a"]) (<[(false, ["a"; "b"]) := Fs.Directory]> (<[(false, ["c"]) := Fs.Directory]> ∅))
  = <[(false, ["c"]) := Fs.Directory]> ∅.
Proof. vm_compute. reflexivity. Qed.

(** ** Strings *)

Section Strings.

Implicit Types s p r : string.

#[local] Arguments String.append !_ _ / : simpl nomatch.

Lemma split_nonempty c s : PyStr.split c s ≠ [].
Proof.
  destruct s as [|d s]; simpl; [done|].
  destruct (Ascii.eqb d c); [done|]. by destruct (PyStr.split c s).
Qed.

Lemma split_app c s r :
  PyStr.split c (s +:+ String c r) = PyStr.split c s ++ PyStr.split c r.
Proof.
  induction s as [|d s IH]; simpl.
  - by rewrite Ascii.eqb_refl.
  - rewrite IH. destruct (Ascii.eqb d c); [done|].
    pose proof (split_nonempty c s) as Hne.
    by destruct (PyStr.split c s).
Qed.



Lemma slice_from_app p r : PyStr.slice_from (String.length p) (p +:+ r) = r.
Proof. induction p as [|c p IH]; simpl; [done | exact IH]. Qed.

Lemma app_assoc_char p c r : (p +:+ String c "") +:+ r = p +:+ String c r.
Proof. induction p as [|d p IH]; simpl; [done|]. by rewrite IH. Qed.

Lemma length_app_sep p : String.length (p +:+ "/") = String.length p + 1.
Proof. induction p as [|c p IH]; simpl; [done|]. by rewrite IH. Qed.

Lemma endswith_char_inv s c :
  PyStr.endswith_char s c = true → ∃ s', s = s' +:+ String c "".
Proof.
  induction s as [|d s IH]; simpl; [done|].
  destruct s as [|e s].
  - intros ->%Ascii.eqb_eq. by exists "".
  - intros H. destruct (IH H) as [s' Hs']. exists (String d s'). simpl. by rewrite Hs'.
Qed.



End Strings.

(** ** Paths *)

Section Paths.

Implicit Types (d n : string) (k q : Fs.Path).

#[local] Arguments String.append !_ _ / : simpl nomatch.

Lemma walk_app a st l1 l2 :
  Fs.walk a st (l1 ++ l2) = Fs.walk a (Fs.walk a st l1) l2.
Proof. apply fold_left_app. Qed.


Lemma startswith_sep_app d r :
  d ≠ "" → PyStr.startswith (d +:+ r) "/" = PyStr.startswith d "/".
Proof. destruct d; [done|]. intros _. simpl. by destruct (Ascii.eqb _ _). Qed.

Lemma resolve_join d n :
  PyStr.startswith n "/" = false →
  Fs.resolve (Fs.join d n)
  = ((Fs.resolve d).1, Fs.walk (Fs.resolve d).1 (Fs.resolve d).2 (PyStr.split PyStr.slash n)).
Proof.
  intros Hrel. unfold Fs.join. rewrite Hrel.
  destruct (String.eqb_spec d "") as [->|Hd]; simpl orb; cbv iota.
  - simpl. unfold Fs.resolve. by rewrite Hrel.
  - destruct (PyStr.endswith_char d PyStr.slash) eqn:Hend.
    + apply endswith_char_inv in Hend as [d' ->].
      unfold Fs.resolve. rewrite startswith_sep_app by done. cbn [fst snd].
      f_equal. rewrite app_assoc_char, !split_app, !walk_app. done.
    + unfold Fs.resolve. rewrite startswith_sep_app by done. cbn [fst snd].
      f_equal.
      change (d +:+ "/" +:+ n) with (d +:+ String PyStr.slash n).
      by rewrite split_app, walk_app.
Qed.



End Paths.

(** ** Computations *)

Section Computations.

Context {A B : Type}.

Lemma bind_assoc_pt {C} (m : M A) (f : A → M B) (g : B → M C) fs :
  bind (bind m f) g fs = bind m (λ a, bind (f a) g) fs.
Proof.
  unfold bind. destruct (m fs) as [[[a|e] fs1] l1]; [|done].
  destruct (f a fs1) as [[[b|e] fs2] l2]; [|done].
  destruct (g b fs2) as [[r fs3] l3]. by rewrite app_assoc.
Qed.

Lemma bind_ret_l_pt (a : A) (f : A → M B) fs : bind (ret a) f fs = f a fs.
Proof. unfold bind, ret. by destruct (f a fs) as [[r fs1] l1]. Qed.

Lemma bind_ext (m : M A) (f g : A → M B) fs :
  (∀ a fs', f a fs' = g a fs') → bind m f fs = bind m g fs.
Proof.
  intros H. unfold bind. destruct (m fs) as [[[a|e] fs1] l1]; [|done].
  by rewrite H.
Qed.

End Computations.

(** ** The extraction loop *)

Section Loop.

Context (env : Env).

Lemma tar_extract_log m dest fs :
  log_of (tar_extract m dest fs) = [(EvExtract (name m) dest, fs)].
Proof.
  unfold tar_extract, bind, emit, update, log_of.
  destruct (Fs.mkdirs _ fs) as [fs1|]; [|done].
  by destruct (Fs.create _ _ fs1).
Qed.

Lemma extract_members_some dest p ms fs :
  extract_members dest (Some p) ms fs
  = for_each (survivors p ms) (λ m, tar_extract m dest) fs.
Proof.
  revert fs. induction ms as [|m ms IH]; intros fs; [done|].
  unfold survivors in *. cbn [extract_members fmap list_fmap List.filter].
  fold (rewritten p m). change (name (rewritten p m)) with (strip p (name m)).
  destruct (rejected (strip p (name m))); cbn [negb]; [apply IH|].
  cbn [for_each]. unfold bind.
  destruct (tar_extract _ dest fs) as [[[[]|e] fs1] l1]; [|done].
  by rewrite IH.
Qed.

Lemma extract_members_none dest ms fs :
  extract_members dest None ms fs
  = for_each (survivors (wrapper_prefix ms) ms) (λ m, tar_extract m dest) fs.
Proof.
  destruct ms as [|m ms]; [done|].
  rewrite <- extract_members_some. reflexivity.
Qed.

Lemma for_each_extract_events dest ms fs :
  let r := for_each ms (λ m, tar_extract m dest) fs in
  events r `prefix_of` extract_events dest ms
  ∧ (result r = Ok tt → events r = extract_events dest ms).
Proof.
  revert fs. induction ms as [|m ms IH]; intros fs; cbn zeta.
  - split; [|done]. by exists [].
  - cbn [for_each]. unfold bind.
    pose proof (tar_extract_log m dest fs) as Hlog.
    destruct (tar_extract m dest fs) as [[[[]|e] fs1] l1]; unfold log_of in Hlog;
      cbn [snd] in Hlog; subst l1.
    + specialize (IH fs1). cbn zeta in IH. destruct IH as [IH1 IH2].
      destruct (for_each ms _ fs1) as [[r2 fs2] l2].
      unfold events, result in *. cbn [fst snd] in *.
      change (([(EvExtract (name m) dest, fs)] ++ l2).*1)
        with (EvExtract (name m) dest :: l2.*1).
      change (extract_events dest (m :: ms))
        with (EvExtract (name m) dest :: extract_events dest ms).
      split.
      * by apply prefix_cons.
      * intros Hr. f_equal. by apply IH2.
    + unfold events, result. cbn. split; [|done].
      exists (extract_events dest ms). done.
Qed.

Lemma survivors_elem p ms m' :
  m' ∈ survivors p ms ↔ ∃ m, m ∈ ms ∧ m' = rewritten p m ∧ rejected (strip p (name m)) = false.
Proof.
  unfold survivors. rewrite list_elem_of_In, filter_In, <- list_elem_of_In, list_elem_of_fmap.
  split.
  - intros [(m & -> & Hm) Hacc]. exists m. split_and!; [done..|].
    by apply negb_true_iff in Hacc.
  - intros (m & Hm & -> & Hacc). split; [by exists m|].
    by apply negb_true_iff.
Qed.

End Loop.

Section LoopFacts.

#[local] Arguments String.append !_ _ / : simpl nomatch.







End LoopFacts.

(** ** The claims about the extraction loop *)







(** ** The file system *)

Section FsFacts.

Implicit Types (k q d : Fs.Path) (fs : FS).

Lemma prefixes_from_elem (done todo l : list string) :
  l ∈ Fs.prefixes_from done todo
  ↔ ∃ t, t ≠ [] ∧ t `prefix_of` todo ∧ l = done ++ t.
Proof.
  revert done. induction todo as [|s todo IH]; intros done; simpl.
  - split; [by intros ?%elem_of_nil|].
    intros (t & Hne & ->%prefix_nil_inv & _). done.
  - rewrite elem_of_cons, IH. split.
    + intros [->|(t & Hne & Hpre & ->)].
      * exists [s]. split_and!; [done| |done]. apply prefix_cons, prefix_nil.
      * exists (s :: t). split_and!; [done|by apply prefix_cons|].
        by rewrite <- app_assoc.
    + intros (t & Hne & Hpre & ->). destruct t as [|s' t]; [done|].
      pose proof (prefix_cons_inv_1 _ _ _ _ Hpre) as ->.
      apply prefix_cons_inv_2 in Hpre.
      destruct t as [|s'' t]; [by left|]. right.
      exists (s'' :: t). split_and!; [done..|]. by rewrite <- app_assoc.
Qed.

Lemma chain_elem q k :
  q ∈ Fs.chain k ↔ q.1 = k.1 ∧ q.2 ≠ [] ∧ q.2 `prefix_of` k.2.
Proof.
  unfold Fs.chain. rewrite list_elem_of_fmap. split.
  - intros (l & -> & (t & Hne & Hpre & ->)%prefixes_from_elem). done.
  - intros (H1 & Hne & Hpre). exists q.2. split.
    + destruct q. simpl in *. by subst.
    + apply prefixes_from_elem. by exists q.2.
Qed.

Lemma removelast_prefix (l : list string) : removelast l `prefix_of` l.
Proof.
  destruct (decide (l = [])) as [->|Hne]; [done|].
  exists [List.last l ""]. by apply app_removelast_last.
Qed.

Lemma chain_parent_elem q k :
  q ∈ Fs.chain (Fs.parent k) → q.1 = k.1 ∧ q.2 ≠ [] ∧ q.2 `prefix_of` k.2.
Proof.
  intros (H1 & Hne & Hpre)%chain_elem. split_and!; [done..|].
  etrans; [exact Hpre|apply removelast_prefix].
Qed.


Lemma insert_dirs_lookup (l : list Fs.Path) fs q :
  foldr (λ q m, <[q := Fs.Directory]> m) fs l !! q
  = if decide (q ∈ l) then Some Fs.Directory else fs !! q.
Proof.
  induction l as [|x l IH]; cbn [foldr].
  - rewrite decide_False; [done|apply not_elem_of_nil].
  - destruct (decide (x = q)) as [->|Hne].
    + rewrite lookup_insert_eq. rewrite decide_True; [done|left].
    + rewrite lookup_insert_ne by done. rewrite IH.
      destruct (decide (q ∈ l)).
      * rewrite decide_True; [done|by right].
      * rewrite decide_False; [done|]. intros [->|?]%elem_of_cons; done.
Qed.

Lemma ok_for_dir_spec fs q :
  Fs.ok_for_dir fs q = true ↔ fs !! q = None ∨ fs !! q = Some Fs.Directory.
Proof.
  unfold Fs.ok_for_dir. destruct (fs !! q) as [[]|]; split; intros H;
    try done; auto; by destruct H.
Qed.

Lemma mkdirs_Some k fs fs' :
  Fs.mkdirs k fs = Some fs' →
  (∀ q, fs' !! q = if decide (q ∈ Fs.chain k) then Some Fs.Directory else fs !! q)
  ∧ (∀ q, q ∈ Fs.chain k → fs !! q = None ∨ fs !! q = Some Fs.Directory).
Proof.
  unfold Fs.mkdirs. destruct (forallb _ _) eqn:Hall; [|done].
  intros [= <-]. split.
  - intros q. apply insert_dirs_lookup.
  - intros q Hq. apply ok_for_dir_spec.
    rewrite forallb_forall in Hall. apply Hall. by apply list_elem_of_In.
Qed.

Lemma mkdirs_is_Some k fs :
  (∀ q, q ∈ Fs.chain k → fs !! q = None ∨ fs !! q = Some Fs.Directory) →
  is_Some (Fs.mkdirs k fs).
Proof.
  intros H. unfold Fs.mkdirs.
  assert (forallb (Fs.ok_for_dir fs) (Fs.chain k) = true) as ->; [|by eexists].
  apply forallb_forall. intros q Hq%list_elem_of_In.
  apply ok_for_dir_spec. by apply H.
Qed.

Lemma remove_tree_lookup d fs k :
  Fs.remove_tree d fs !! k = if decide (Fs.under d k) then None else fs !! k.
Proof.
  unfold Fs.remove_tree. apply option_eq. intros n.
  rewrite map_lookup_filter_Some. simpl. case_decide; split; try done; tauto.
Qed.

Lemma create_Some k n fs fs' :
  Fs.create k n fs = Some fs' →
  fs' = fs ∨ (fs' = <[k := n]> fs ∧ Fs.node_at fs k ≠ Some Fs.Directory).
Proof.
  unfold Fs.create. intros H.
  destruct n; destruct (Fs.node_at fs k) as [[]|] eqn:Hk; simplify_eq; auto.
Qed.

End FsFacts.

(** ** Extraction changes nothing outside its destination *)

Section Frame.

Implicit Types (k q d : Fs.Path) (fs : FS).








End Frame.

(** ** The archive materializer, step by step *)

Section Materializer.

Context (env : Env).

Implicit Types (fs : FS) (url dest : string).

Lemma download_and_extract_run url dest fs :
  download_and_extract env url dest fs =
  let http := (EvHttpGet url accept_header, fs) in
  let mk := (EvMakedirs dest, fs) in
  match urlopen env url with
  | None => (Raise URLError, fs, [http])
  | Some data =>
      if String.eqb dest "" then (Raise OSError, fs, [http; mk])
      else match Fs.mkdirs (Fs.resolve dest) fs with
           | None => (Raise OSError, fs, [http; mk])
           | Some fs1 =>
               match tar_getmembers env data with
               | None => (Raise ReadError, fs1, [http; mk])
               | Some ms =>
                   let r := extract_members dest None ms fs1 in
                   (result r, final_fs r, http :: mk :: log_of r)
               end
           end
  end.
Proof.
  unfold download_and_extract, urlopen_read, os_makedirs, bind, emit, update, raise, ret.
  cbn zeta. destruct (urlopen env url) as [data|]; [|done].
  destruct (String.eqb dest ""); [done|].
  destruct (Fs.mkdirs _ fs) as [fs1|]; [|done].
  destruct (tar_getmembers env data) as [ms|]; [|done].
  by destruct (extract_members dest None ms fs1) as [[r fs2] l].
Qed.

Lemma mkdirs_dirs_exist d fs fs1 :
  Fs.mkdirs d fs = Some fs1 → dirs_exist d fs1.
Proof.
  intros [Hlook _]%mkdirs_Some q Hq. rewrite Hlook. by rewrite decide_True.
Qed.

Lemma mkdirs_existing d fs : dirs_exist d fs → Fs.mkdirs d fs = Some fs.
Proof.
  intros Hd. destruct (mkdirs_is_Some d fs) as [fs1 H1].
  { intros q Hq. right. by apply Hd. }
  rewrite H1. f_equal. apply map_eq. intros q.
  apply mkdirs_Some in H1 as [Hlook _]. rewrite Hlook.
  case_decide; [|done]. symmetry. by apply Hd.
Qed.


End Materializer.



(** ** Failures *)

Section Failures.

Implicit Types (fs : FS).



End Failures.



(** ** The order of the materializer's steps *)

Lemma extract_members_log_shape dest ms fs ev :
  ev ∈ log_of (extract_members dest None ms fs) → ∃ n, ev.1 = EvExtract n dest.
Proof.
  intros Hin.
  assert (ev.1 ∈ events (extract_members dest None ms fs)) as Hev.
  { unfold events. apply list_elem_of_fmap. by exists ev. }
  rewrite extract_members_none in Hev.
  destruct (for_each_extract_events dest (survivors (wrapper_prefix ms) ms) fs)
    as [[l Hpre] _].
  assert (ev.1 ∈ extract_events dest (survivors (wrapper_prefix ms) ms)) as Hev'.
  { rewrite Hpre. apply elem_of_app. by left. }
  apply list_elem_of_fmap in Hev' as (m & -> & _). by eexists.
Qed.

Lemma os_makedirs_run dest fs :
  os_makedirs dest fs =
  if String.eqb dest "" then (Raise OSError, fs, [(EvMakedirs dest, fs)])
  else match Fs.mkdirs (Fs.resolve dest) fs with
       | Some fs1 => (Ok tt, fs1, [(EvMakedirs dest, fs)])
       | None => (Raise OSError, fs, [(EvMakedirs dest, fs)])
       end.
Proof.
  unfold os_makedirs, bind, emit, update, raise.
  destruct (String.eqb dest ""); [done|]. by destruct (Fs.mkdirs _ fs).
Qed.

(** C8, as stated, fails: the directory is not ensured before the download.
    When the download fails the destination is never created and no
    [os.makedirs] call is made; when it succeeds the request is the first
    event and [os.makedirs] the second. *)
Lemma makedirs_not_before_download :
  let failed := download_and_extract Demo.env Demo.missing_url "out/before" ∅ in
  let done := download_and_extract Demo.env Demo.base_url "out/before" ∅ in
  events failed = [EvHttpGet Demo.missing_url accept_header]
  ∧ final_fs failed !! (false, ["out"; "before"]) = None
  ∧ ¬ (∃ i j, i < j ∧ events done !! i = Some (EvMakedirs "out/before")
              ∧ events done !! j = Some (EvHttpGet Demo.base_url accept_header)).
Proof.
  cbn zeta. split_and!; [reflexivity|reflexivity|].
  intros (i & j & Hlt & Hi & Hj).
  assert (events (download_and_extract Demo.env Demo.base_url "out/before" ∅)
          = [EvHttpGet Demo.base_url accept_header; EvMakedirs "out/before";
             EvExtract "README" "out/before"; EvExtract "src" "out/before";
             EvExtract "src/app.ext" "out/before"]) as Hev
    by (vm_compute; reflexivity).
  rewrite Hev in Hj. clear Hev Hi.
  destruct j as [|j]; [lia|]. cbn [lookup list_lookup] in Hj.
  apply list_elem_of_lookup_2 in Hj.
  repeat (apply elem_of_cons in Hj as [Hj|Hj]; [discriminate Hj|]).
  by apply elem_of_nil in Hj.
Qed.

(** C8, amended.  The materializer first downloads the archive and then
    ensures that the destination directory exists: the request is the first
    event, made on the untouched file system; if it fails nothing else
    happens; if it succeeds [os.makedirs] is the second event and only
    extractions follow.  [os.makedirs] raises nothing when the directory
    is already there and creates it, with the directories above it, when it
    is absent. *)
Theorem download_then_makedirs env url dest fs :
  let r := download_and_extract env url dest fs in
  let d := Fs.resolve dest in
  (∃ rest, log_of r = (EvHttpGet url accept_header, fs) :: rest)
  ∧ (urlopen env url = None →
       r = (Raise URLError, fs, [(EvHttpGet url accept_header, fs)]))
  ∧ (∀ data, urlopen env url = Some data →
       ∃ rest, log_of r = (EvHttpGet url accept_header, fs) :: (EvMakedirs dest, fs) :: rest
               ∧ ∀ ev, ev ∈ rest → ∃ n, ev.1 = EvExtract n dest)
  ∧ (dest ≠ "" → dirs_exist d fs →
       os_makedirs dest fs = (Ok tt, fs, [(EvMakedirs dest, fs)]))
  ∧ (dest ≠ "" → (∀ q, q ∈ Fs.chain d → fs !! q = None ∨ fs !! q = Some Fs.Directory) →
       result (os_makedirs dest fs) = Ok tt
       ∧ dirs_exist d (final_fs (os_makedirs dest fs))).
Proof.
  intros r d. subst r. rewrite download_and_extract_run. cbn zeta. split_and!.
  - destruct (urlopen env url); [|by eexists].
    destruct (String.eqb dest ""); [by eexists|].
    destruct (Fs.mkdirs _ fs); [|by eexists].
    destruct (tar_getmembers env _); by eexists.
  - by intros ->.
  - intros data ->.
    destruct (String.eqb dest "");
      [exists []; split; [done|by intros ? ?%elem_of_nil]|].
    destruct (Fs.mkdirs _ fs) as [fs1|];
      [|exists []; split; [done|by intros ? ?%elem_of_nil]].
    destruct (tar_getmembers env data) as [ms|];
      [|exists []; split; [done|by intros ? ?%elem_of_nil]].
    eexists. split; [done|]. unfold log_of. cbn [snd].
    intros ev Hev. by eapply extract_members_log_shape.
  - intros Hne Hd. rewrite os_makedirs_run.
    apply String.eqb_neq in Hne as ->. by rewrite mkdirs_existing.
  - intros Hne Hok. rewrite os_makedirs_run.
    apply String.eqb_neq in Hne as ->.
    destruct (mkdirs_is_Some d fs Hok) as [fs1 H1]. fold d. rewrite H1.
    split; [done|]. by eapply mkdirs_dirs_exist.
Qed.

Lemma download_then_makedirs_witness :
  download_and_extract Demo.env Demo.missing_url "out/before" ∅
  = (Raise URLError, ∅, [(EvHttpGet Demo.missing_url accept_header, ∅)])
  ∧ (result (os_makedirs "out/before" ∅) = Ok tt
     ∧ dirs_exist (Fs.resolve "out/before") (final_fs (os_makedirs "out/before" ∅))).
Proof.
  destruct (download_then_makedirs Demo.env Demo.missing_url "out/before" ∅)
    as (_ & H2 & _ & _ & H5).
  split.
  - apply H2. reflexivity.
  - apply H5; [discriminate|]. intros q _. left. apply lookup_empty.
Defined.

(** ** The phases of [main] *)

Section MainPhases.

Context (env : Env).

Implicit Types (fs : FS).

Lemma fs_free_ret {A} (a : A) : fs_free [] (ret a).
Proof. by exists (Ok a), []. Qed.

Lemma fs_free_raise {A} e : fs_free [] (raise e : M A).
Proof. by exists (Raise e), []. Qed.

Lemma fs_free_emit_bind {A} e (f : unit → M A) rs :
  (∀ a, fs_free rs (f a)) →
  fs_free (from_option (λ u, [u]) [] (http_of e) ++ rs) (bind (emit e) f).
Proof.
  intros Hf. destruct (Hf tt) as (r & evs & Hrun & Hreq).
  exists r, (e :: evs). split.
  - intros fs'. unfold bind, emit. by rewrite Hrun.
  - cbn [omap list_omap]. rewrite <- Hreq. by destruct (http_of e).
Qed.

Lemma fs_free_bind {A B} (m : M A) (f : A → M B) rs :
  fs_free rs m → (∀ a, fs_free [] (f a)) → fs_free rs (bind m f).
Proof.
  intros (r & evs & Hrun & Hreq) Hf. destruct r as [a|e].
  - destruct (Hf a) as (r2 & evs2 & Hrun2 & Hreq2).
    exists r2, (evs ++ evs2). split.
    + intros fs'. unfold bind. by rewrite Hrun, Hrun2, fmap_app.
    + by rewrite omap_app, Hreq, Hreq2, app_nil_r.
  - exists (Raise e), evs. split; [|done].
    intros fs'. unfold bind. by rewrite Hrun.
Qed.

Lemma fs_free_getitem v key : fs_free [] (getitem v key).
Proof.
  unfold getitem. destruct v; try apply fs_free_raise.
  destruct (lookup_field key fields); [apply fs_free_ret|apply fs_free_raise].
Qed.

Lemma fs_free_slice10 v : fs_free [] (slice10 v).
Proof. unfold slice10. destruct v; first [apply fs_free_raise|apply fs_free_ret]. Qed.

Lemma fs_free_fetch_json url : fs_free [url] (fetch_json env url).
Proof.
  unfold fetch_json, urlopen_read. apply fs_free_bind.
  - apply (fs_free_emit_bind (EvHttpGet url accept_header) _ []). intros _.
    destruct (urlopen env url); [apply fs_free_ret|apply fs_free_raise].
  - intros body. destruct (json_loads env body); [apply fs_free_ret|apply fs_free_raise].
Qed.

Lemma fs_free_fetch_shas pr : fs_free [pulls_url pr] (fetch_shas env pr).
Proof.
  unfold fetch_shas, print.
  apply (fs_free_emit_bind (EvStdout _) _ [pulls_url pr]). intros _.
  apply fs_free_bind; [apply fs_free_fetch_json|]. intros pr_info.
  repeat (apply fs_free_bind; [first [apply fs_free_getitem|apply fs_free_slice10]|intros ?]).
  apply (fs_free_emit_bind (EvStdout _) _ []). intros _. apply fs_free_ret.
Qed.

Lemma main_phases a0 pr out fs :
  main env [a0; pr; out] fs
  = bind (fetch_shas env pr) (λ s, after_metadata env out s.1 s.2) fs.
Proof.
  unfold main, fetch_shas. cbn [List.length Nat.eqb negb nth].
  repeat (rewrite bind_assoc_pt; apply bind_ext; intros ? ?).
  by rewrite bind_ret_l_pt.
Qed.

End MainPhases.

(** ** Usage and metadata errors *)

(** C5, as stated, fails: with one argument the usage line goes to standard
    output, and nothing is written to standard error. *)
Lemma usage_not_on_stderr :
  let r := run_script Demo.env ["diffpr.py"; "42"] ∅ in
  stdout_lines r.2 = ["Usage: diffpr.py <pr_number> <output_dir>"]
  ∧ ¬ (∃ msg, msg ∈ stderr_lines r.2).
Proof.
  cbn zeta. split; [reflexivity|]. intros [msg Hmsg].
  vm_compute in Hmsg. by apply elem_of_nil in Hmsg.
Qed.

(** C5, amended.  When the number of arguments after the program name is not
    two, the program prints the usage line on standard output, exits with
    status 1, makes no HTTP request, writes nothing on standard error and
    leaves the file system alone. *)
Theorem usage_error env argv0 args fs :
  List.length args ≠ 2 →
  let r := run_script env (argv0 :: args) fs in
  r = (1%Z, fs, [(EvStdout (usage_line argv0), fs)])
  ∧ stdout_lines r.2 = ["Usage: " +:+ argv0 +:+ " <pr_number> <output_dir>"]
  ∧ stderr_lines r.2 = []
  ∧ http_requests r.2 = [].
Proof.
  intros Hlen r.
  assert (r = (1%Z, fs, [(EvStdout (usage_line argv0), fs)])) as ->; [|done].
  subst r. unfold run_script, main. cbn [List.length].
  destruct (Nat.eqb_spec (S (List.length args)) 3) as [Heq|_]; [lia|].
  reflexivity.
Qed.

Lemma usage_error_witness :
  run_script Demo.env ["diffpr.py"; "42"] ∅
  = (1%Z, ∅, [(EvStdout (usage_line "diffpr.py"), ∅)]).
Proof.
  apply (usage_error Demo.env "diffpr.py" ["42"] ∅). simpl. lia.
Defined.

Section Metadata.

Context (env : Env).

Lemma fetch_shas_missing pr body pr_info fs :
  urlopen env (pulls_url pr) = Some body →
  json_loads env body = Some pr_info →
  sha_field pr_info "base" = None ∨ sha_field pr_info "head" = None →
  ∃ e, (e = KeyError ∨ e = TypeError)
       ∧ fetch_shas env pr fs
         = (Raise e, fs,
            [(EvStdout ("Fetching PR #" +:+ pr +:+ " info..."), fs);
             (EvHttpGet (pulls_url pr) accept_header, fs)]).
Proof.
  intros Hu Hj Hmiss.
  unfold fetch_shas, fetch_json, urlopen_read, print, bind, emit, ret, raise.
  rewrite Hu, Hj. unfold sha_field, json_field in Hmiss.
  unfold getitem, ret, raise.
  destruct pr_info as [| | | | |fields]; try (by exists TypeError; split; [right|]).
  destruct (lookup_field "base" fields) as [base|];
    [|by exists KeyError; split; [left|]].
  destruct base as [| | | | |bfields]; try (by exists TypeError; split; [right|]).
  destruct (lookup_field "sha" bfields) as [bsha|];
    [|by exists KeyError; split; [left|]].
  destruct (lookup_field "head" fields) as [head|];
    [|by exists KeyError; split; [left|]].
  destruct head as [| | | | |hfields]; try (by exists TypeError; split; [right|]).
  destruct (lookup_field "sha" hfields) as [hsha|];
    [|by exists KeyError; split; [left|]].
  by destruct Hmiss.
Qed.

Lemma main_fetch_failed a0 pr out fs e l :
  fetch_shas env pr fs = (Raise e, fs, l) →
  main env [a0; pr; out] fs = (Raise e, fs, l).
Proof. intros H. rewrite main_phases. unfold bind. by rewrite H. Qed.

End Metadata.

(** C6.  When the metadata request fails (no response or a status that is
    not 2xx), when the body is not JSON, or when [base.sha] or [head.sha] is
    missing, the program ends with the exception of that step, uncaught (the
    interpreter reports it and exits with status 1).  One HTTP request was
    made, the metadata request, and nothing else happened: no tarball was
    requested, nothing was extracted and the file system is unchanged. *)
Theorem metadata_failure_stops env argv0 pr out fs :
  let r := main env [argv0; pr; out] fs in
  let l0 := [(EvStdout ("Fetching PR #" +:+ pr +:+ " info..."), fs);
             (EvHttpGet (pulls_url pr) accept_header, fs)] in
  let failed e :=
    r = (Raise e, fs, l0)
    ∧ http_requests (log_of r) = [pulls_url pr]
    ∧ (run_script env [argv0; pr; out] fs).1 = (1%Z, fs) in
  (urlopen env (pulls_url pr) = None → failed URLError)
  ∧ (∀ body, urlopen env (pulls_url pr) = Some body →
       json_loads env body = None → failed ValueError)
  ∧ (∀ body pr_info, urlopen env (pulls_url pr) = Some body →
       json_loads env body = Some pr_info →
       sha_field pr_info "base" = None ∨ sha_field pr_info "head" = None →
       failed KeyError ∨ failed TypeError).
Proof.
  intros r l0 failed.
  assert (∀ e, (∀ c, e ≠ SystemExit c) →
            fetch_shas env pr fs = (Raise e, fs, l0) → failed e) as Hfail.
  { intros e Hne H. pose proof (main_fetch_failed env argv0 pr out fs e l0 H) as Hr.
    unfold failed. subst r. rewrite Hr. split_and!; [done..|].
    unfold run_script. rewrite Hr. destruct e; try done. by destruct (Hne code). }
  split_and!.
  - intros Hu. apply Hfail; [done..|].
    unfold fetch_shas, fetch_json, urlopen_read, print, bind, emit, raise.
    by rewrite Hu.
  - intros body Hu Hj. apply Hfail; [done..|].
    unfold fetch_shas, fetch_json, urlopen_read, print, bind, emit, raise, ret.
    by rewrite Hu, Hj.
  - intros body pr_info Hu Hj Hmiss.
    destruct (fetch_shas_missing env pr body pr_info fs Hu Hj Hmiss)
      as (e & [->| ->] & He); [left|right]; by apply Hfail.
Qed.

Lemma metadata_failure_stops_witness :
  main Demo.env ["diffpr.py"; "7"; "out"] Demo.stale_fs
  = (Raise ValueError, Demo.stale_fs,
     [(EvStdout "Fetching PR #7 info...", Demo.stale_fs);
      (EvHttpGet (pulls_url "7") accept_header, Demo.stale_fs)]).
Proof.
  destruct (metadata_failure_stops Demo.env "diffpr.py" "7" "out" Demo.stale_fs)
    as (_ & H & _).
  apply (H [x00]); reflexivity.
Defined.

(** ** The output layout *)

Section Layout.

Context (o : Fs.Path) (x y : string) (Hxy : x ≠ y).

Implicit Types (q : Fs.Path).





Lemma entry_nonempty : (entry o x).2 ≠ [].
Proof. simpl. by destruct o.2. Qed.


End Layout.

Lemma resolve_before out :
  Fs.resolve (Fs.join out "before") = entry (Fs.resolve out) "before".
Proof. by rewrite resolve_join. Qed.

Lemma resolve_after out :
  Fs.resolve (Fs.join out "after") = entry (Fs.resolve out) "after".
Proof. by rewrite resolve_join. Qed.

(** ** Cleaning *)

Section Cleaning.

Implicit Types (fs : FS) (k q : Fs.Path).

Lemma node_at_nonempty fs k : k.2 ≠ [] → Fs.node_at fs k = fs !! k.
Proof. unfold Fs.node_at. by destruct k.2. Qed.

Lemma clean_one_run d fs :
  (Fs.resolve d).2 ≠ [] →
  ∃ l, downloads l = []
       ∧ (let* present := os_path_exists d in
          if present then shutil_rmtree d else ret tt) fs
         = match clean_fs (Fs.resolve d) fs with
           | Some fs1 => (Ok tt, fs1, l)
           | None => (Raise OSError, fs, l)
           end.
Proof.
  intros Hne. pose proof (node_at_nonempty fs _ Hne) as Hn.
  unfold bind, os_path_exists, shutil_rmtree, emit, update, ret, clean_fs.
  destruct (fs !! Fs.resolve d) as [[]|];
    [exists [(EvRmtree d, fs)]..|exists []]; (split; [done|]); rewrite !Hn;
    simpl; unfold bind; rewrite ?Hn; reflexivity.
Qed.

Lemma clean_run b a fs :
  (Fs.resolve b).2 ≠ [] → (Fs.resolve a).2 ≠ [] →
  ∃ l, downloads l = []
       ∧ clean [b; a] fs
         = match clean_fs (Fs.resolve b) fs with
           | None => (Raise OSError, fs, l)
           | Some fs1 =>
               match clean_fs (Fs.resolve a) fs1 with
               | None => (Raise OSError, fs1, l)
               | Some fs2 => (Ok tt, fs2, l)
               end
           end.
Proof.
  intros Hb Ha. unfold clean. cbn [for_each].
  destruct (clean_one_run b fs Hb) as (l1 & Hl1 & H1).
  unfold bind at 1. rewrite H1.
  destruct (clean_fs (Fs.resolve b) fs) as [fs1|]; [|by exists l1].
  destruct (clean_one_run a fs1 Ha) as (l2 & Hl2 & H2).
  unfold bind at 1. rewrite H2.
  destruct (clean_fs (Fs.resolve a) fs1) as [fs2|].
  - exists (l1 ++ l2 ++ []). split; [|done].
    unfold downloads in *. by rewrite !omap_app, Hl1, Hl2.
  - exists (l1 ++ l2). split; [|done].
    unfold downloads in *. by rewrite !omap_app, Hl1, Hl2.
Qed.

Lemma wf_lookup fs k n q :
  Fs.wf fs → fs !! k = Some n → q ∈ Fs.chain (Fs.parent k) →
  fs !! q = Some Fs.Directory.
Proof.
  intros Hwf Hk Hq. specialize (Hwf k n Hk). simpl in Hwf.
  rewrite Forall_forall in Hwf. by apply Hwf.
Qed.



Lemma under_trans k q q' : Fs.under k q → Fs.under q q' → Fs.under k q'.
Proof. intros [H1 H2] [H3 H4]. split; [congruence|by etrans]. Qed.

Lemma remove_tree_wf fs k : Fs.wf fs → Fs.wf (Fs.remove_tree k fs).
Proof.
  intros Hwf q n Hq. simpl. rewrite remove_tree_lookup in Hq.
  case_decide as Hu; [done|]. apply Forall_forall. intros p Hp.
  rewrite remove_tree_lookup. rewrite decide_False.
  - by eapply wf_lookup.
  - intros Hkp. apply Hu. apply chain_parent_elem in Hp as (H1 & _ & Hpre).
    eapply under_trans; [exact Hkp|]. by split.
Qed.


End Cleaning.

(** ** Requests and the file system they see *)

Section Requests.

Context (env : Env).

Implicit Types (fs : FS) (l : Log).

Lemma downloads_app l1 l2 : downloads (l1 ++ l2) = downloads l1 ++ downloads l2.
Proof. apply omap_app. Qed.

Lemma downloads_fs_free fs (evs : list Event) :
  downloads ((λ e, (e, fs)) <$> evs) = (λ u, (u, fs)) <$> omap http_of evs.
Proof.
  induction evs as [|e evs IH]; [done|].
  rewrite fmap_cons. unfold downloads in *. cbn [omap list_omap fst snd].
  rewrite IH. by destruct e.
Qed.

Lemma downloads_extract dest l :
  (∀ ev, ev ∈ l → ∃ n, ev.1 = EvExtract n dest) → downloads l = [].
Proof.
  induction l as [|ev l IH]; intros H; [done|].
  unfold downloads in *. cbn [omap list_omap].
  destruct (H ev) as [n ->]; [left|]. apply IH. intros ev' Hev'. apply H. by right.
Qed.

Lemma downloads_dl url dest fs :
  downloads (log_of (download_and_extract env url dest fs)) = [(url, fs)].
Proof.
  rewrite download_and_extract_run. cbn zeta.
  destruct (urlopen env url) as [data|]; [|done].
  destruct (String.eqb dest ""); [done|].
  destruct (Fs.mkdirs _ fs) as [fs1|]; [|done].
  destruct (tar_getmembers env data) as [ms|]; [|done].
  unfold log_of. cbn [snd].
  change (downloads (?a :: ?b :: ?l)) with ((url, fs) :: downloads l).
  f_equal. apply (downloads_extract dest). intros ev Hev.
  by eapply extract_members_log_shape.
Qed.

Lemma materialize_run b h bd ad fs :
  let r1 := download_and_extract env (tarball_url env b) bd fs in
  let r2 := download_and_extract env (tarball_url env h) ad (final_fs r1) in
  ∃ l,
    materialize env b h bd ad fs
    = (match result r1 with Raise e => Raise e | Ok _ => result r2 end,
       match result r1 with Raise _ => final_fs r1 | Ok _ => final_fs r2 end,
       l)
    ∧ downloads l
      = (tarball_url env b, fs)
        :: match result r1 with
           | Raise _ => []
           | Ok _ => [(tarball_url env h, final_fs r1)]
           end.
Proof.
  cbn zeta.
  pose proof (downloads_dl (tarball_url env b) bd fs) as Hd1.
  pose proof (λ fs1, downloads_dl (tarball_url env h) ad fs1) as Hd2.
  unfold materialize, print, bind, emit.
  destruct (download_and_extract env (tarball_url env b) bd fs) as [[[[]|e1] fs1] l1];
    unfold result, final_fs, log_of in *; cbn [fst snd] in *.
  - specialize (Hd2 fs1).
    destruct (download_and_extract env (tarball_url env h) ad fs1) as [[[[]|e2] fs2] l2];
      cbn [fst snd] in *.
    + eexists. split; [done|]. rewrite !downloads_app, Hd1, Hd2. reflexivity.
    + eexists. split; [done|]. rewrite !downloads_app, Hd1, Hd2. reflexivity.
  - eexists. split; [done|]. rewrite !downloads_app, Hd1. reflexivity.
Qed.

End Requests.

(** ** A run of [main], phase by phase *)

Section MainRun.

Context (env : Env).

Implicit Types (fs : FS) (l : Log).

Lemma main_wrong_count argv fs :
  List.length argv ≠ 3 → downloads (log_of (main env argv fs)) = []
                          ∧ final_fs (main env argv fs) = fs.
Proof.
  intros Hlen. unfold main.
  destruct (Nat.eqb_spec (List.length argv) 3) as [|_]; [done|].
  cbn [negb]. by destruct argv.
Qed.

Lemma main_run a0 pr out fs :
  ∃ rf evs,
    (∀ fs', fetch_shas env pr fs' = (rf, fs', (λ e, (e, fs')) <$> evs))
    ∧ match rf with
      | Raise e =>
          main env [a0; pr; out] fs = (Raise e, fs, (λ e, (e, fs)) <$> evs)
          ∧ downloads (log_of (main env [a0; pr; out] fs)) = [(pulls_url pr, fs)]
      | Ok s =>
          let r := after_metadata env out s.1 s.2 fs in
          result (main env [a0; pr; out] fs) = result r
          ∧ final_fs (main env [a0; pr; out] fs) = final_fs r
          ∧ downloads (log_of (main env [a0; pr; out] fs))
            = (pulls_url pr, fs) :: downloads (log_of r)
      end.
Proof.
  destruct (fs_free_fetch_shas env pr) as (rf & evs & Hrun & Hreq).
  exists rf, evs. split; [done|]. rewrite main_phases. unfold bind.
  rewrite Hrun. destruct rf as [s|e].
  - cbn zeta. destruct (after_metadata env out s.1 s.2 fs) as [[r fs1] l1].
    unfold result, final_fs, log_of. cbn [fst snd]. split_and!; [done..|].
    by rewrite downloads_app, downloads_fs_free, Hreq.
  - split; [done|]. unfold log_of. cbn [snd]. by rewrite downloads_fs_free, Hreq.
Qed.

Lemma after_metadata_run out b h fs :
  let bd := Fs.join out "before" in
  let ad := Fs.join out "after" in
  let r := after_metadata env out b h fs in
  match clean_fs (Fs.resolve bd) fs with
  | None => result r = Raise OSError ∧ final_fs r = fs ∧ downloads (log_of r) = []
  | Some fs1 =>
      match clean_fs (Fs.resolve ad) fs1 with
      | None => result r = Raise OSError ∧ final_fs r = fs1 ∧ downloads (log_of r) = []
      | Some fs2 =>
          let m := materialize env b h bd ad fs2 in
          result r = result m ∧ final_fs r = final_fs m
          ∧ downloads (log_of r) = downloads (log_of m)
      end
  end.
Proof.
  intros bd ad r. subst r. unfold after_metadata. fold bd ad.
  destruct (clean_run bd ad fs) as (l & Hl & Hrun).
  { subst bd. rewrite resolve_before. apply entry_nonempty. }
  { subst ad. rewrite resolve_after. apply entry_nonempty. }
  unfold bind. rewrite Hrun.
  destruct (clean_fs (Fs.resolve bd) fs) as [fs1|]; [|done].
  destruct (clean_fs (Fs.resolve ad) fs1) as [fs2|]; [|done].
  cbn zeta. destruct (materialize env b h bd ad fs2) as [[rm fsm] lm].
  unfold result, final_fs, log_of. cbn [fst snd]. split_and!; [done..|].
  by rewrite downloads_app, Hl.
Qed.


End MainRun.




(** ** Running twice *)

Section Again.

Context (env : Env).

Implicit Types (fs : FS) (k q : Fs.Path).










End Again.

Section Twice.

Context (env : Env) (out : string) (b h : json).

Let o := Fs.resolve out.
Let bd := Fs.join out "before".
Let ad := Fs.join out "after".
Let B := entry o "before".
Let A := entry o "after".

Implicit Types (fs : FS) (q : Fs.Path).









End Twice.



(** * Further properties of the code *)

(** ** Properties of all runs *)

Section Combinators.

Context {A B : Type}.

Implicit Types (fs : FS).

Lemma keeps_ret (P : FS → Prop) (a : A) : keeps P (ret a).
Proof. by intros fs. Qed.

Lemma keeps_raise (P : FS → Prop) e : keeps P (raise e : M A).
Proof. by intros fs. Qed.

Lemma keeps_emit (P : FS → Prop) e : keeps P (emit e).
Proof. by intros fs. Qed.

Lemma keeps_bind (P : FS → Prop) (m : M A) (f : A → M B) :
  keeps P m → (∀ a, keeps P (f a)) → keeps P (bind m f).
Proof.
  intros Hm Hf fs HP. specialize (Hm fs HP). unfold bind, final_fs in *.
  destruct (m fs) as [[[a|e] fs1] l1]; cbn [fst snd] in *; [|done].
  specialize (Hf a fs1 Hm). unfold final_fs in Hf.
  by destruct (f a fs1) as [[r fs2] l2].
Qed.

Lemma keeps_update (P : FS → Prop) (f : FS → option FS) :
  (∀ fs fs', P fs → f fs = Some fs' → P fs') → keeps P (update f).
Proof.
  intros Hf fs HP. unfold update, final_fs.
  destruct (f fs) as [fs'|] eqn:H; cbn [fst snd]; [by eapply Hf|done].
Qed.

Lemma all_ret (P : Event → Prop) (a : A) : all_events P (ret a).
Proof. by intros fs ev ?%elem_of_nil. Qed.

Lemma all_raise (P : Event → Prop) e : all_events P (raise e : M A).
Proof. by intros fs ev ?%elem_of_nil. Qed.

Lemma all_emit (P : Event → Prop) e : P e → all_events P (emit e).
Proof. intros He fs ev ->%list_elem_of_singleton. done. Qed.

Lemma all_update (P : Event → Prop) (f : FS → option FS) : all_events P (update f).
Proof.
  intros fs ev. unfold update, log_of. by destruct (f fs); intros ?%elem_of_nil.
Qed.

Lemma all_bind (P : Event → Prop) (m : M A) (f : A → M B) :
  all_events P m → (∀ a, all_events P (f a)) → all_events P (bind m f).
Proof.
  intros Hm Hf fs ev. specialize (Hm fs). unfold bind, log_of in *.
  destruct (m fs) as [[[a|e] fs1] l1]; cbn [fst snd] in *; [|by apply Hm].
  specialize (Hf a fs1). unfold log_of in Hf.
  destruct (f a fs1) as [[r fs2] l2]. cbn [snd] in *.
  intros [?|?]%elem_of_app; [by apply Hm|by apply Hf].
Qed.

End Combinators.

Lemma keeps_for_each {X : Type} (P : FS → Prop) (xs : list X) (body : X → M unit) :
  (∀ x, keeps P (body x)) → keeps P (for_each xs body).
Proof.
  intros Hb. induction xs as [|x xs IH]; [apply keeps_ret|].
  apply keeps_bind; [apply Hb|by intros _].
Qed.

Lemma all_for_each {X : Type} (P : Event → Prop) (xs : list X) (body : X → M unit) :
  (∀ x, all_events P (body x)) → all_events P (for_each xs body).
Proof.
  intros Hb. induction xs as [|x xs IH]; [apply all_ret|].
  apply all_bind; [apply Hb|by intros _].
Qed.

Section EveryRun.

Context (env : Env).

Implicit Types (fs : FS).

Lemma all_print P line : P (EvStdout line) → all_events P (print line).
Proof. apply all_emit. Qed.

Lemma all_os_path_exists P p : all_events P (os_path_exists p).
Proof. by intros fs ev ?%elem_of_nil. Qed.

Lemma all_tar_extract (P : Event → Prop) m dest :
  P (EvExtract (name m) dest) → all_events P (tar_extract m dest).
Proof.
  intros HP. unfold tar_extract.
  apply all_bind; [by apply all_emit|intros _].
  apply all_bind; [apply all_update|intros _; apply all_update].
Qed.

Lemma all_extract_members (P : Event → Prop) dest prefix ms :
  (∀ n, P (EvExtract n dest)) → all_events P (extract_members dest prefix ms).
Proof.
  intros HP. revert prefix. induction ms as [|m ms IH]; intros prefix; [apply all_ret|].
  cbn [extract_members]. destruct (rejected _); [apply IH|].
  apply all_bind; [by apply all_tar_extract|intros _; apply IH].
Qed.

Lemma all_urlopen_read (P : Event → Prop) url :
  P (EvHttpGet url accept_header) → all_events P (urlopen_read env url).
Proof.
  intros HP. unfold urlopen_read. apply all_bind; [by apply all_emit|intros _].
  destruct (urlopen env url); [apply all_ret|apply all_raise].
Qed.

Lemma all_download_and_extract (P : Event → Prop) url dest :
  P (EvHttpGet url accept_header) → P (EvMakedirs dest) →
  (∀ n, P (EvExtract n dest)) →
  all_events P (download_and_extract env url dest).
Proof.
  intros H1 H2 H3. unfold download_and_extract, os_makedirs.
  apply all_bind; [by apply all_urlopen_read|intros data].
  apply all_bind.
  - apply all_bind; [by apply all_emit|intros _].
    destruct (String.eqb dest ""); [apply all_raise|apply all_update].
  - intros _. destruct (tar_getmembers env data); [|apply all_raise].
    by apply all_extract_members.
Qed.

Lemma all_getitem P v key : all_events P (getitem v key).
Proof.
  unfold getitem. destruct v; try apply all_raise.
  destruct (lookup_field key fields); [apply all_ret|apply all_raise].
Qed.

Lemma all_slice10 P v : all_events P (slice10 v).
Proof. unfold slice10. destruct v; first [apply all_raise|apply all_ret]. Qed.

Lemma all_clean (P : Event → Prop) dirs :
  (∀ p, P (EvRmtree p)) → all_events P (clean dirs).
Proof.
  intros HP. unfold clean. apply all_for_each. intros d.
  apply all_bind; [apply all_os_path_exists|intros present].
  destruct present; [|apply all_ret]. unfold shutil_rmtree.
  apply all_bind; [by apply all_emit|intros _; apply all_update].
Qed.

Lemma all_main_headers argv : all_events header_ok (main env argv).
Proof.
  unfold main. destruct (negb _).
  - destruct argv as [|argv0 ?]; [apply all_raise|].
    apply all_bind; [by apply all_print|intros _; apply all_raise].
  - apply all_bind; [by apply all_print|intros _].
    apply all_bind.
    { unfold fetch_json. apply all_bind; [by apply all_urlopen_read|intros body].
      destruct (json_loads env body); [apply all_ret|apply all_raise]. }
    intros pr_info.
    repeat (apply all_bind; [first [apply all_getitem|apply all_slice10]|intros ?]).
    apply all_bind; [by apply all_print|intros _].
    apply all_bind; [by apply all_clean|intros _].
    apply all_bind; [by apply all_print|intros _].
    apply all_bind; [by apply all_download_and_extract|intros _].
    apply all_bind; [by apply all_print|intros _].
    apply all_bind; [by apply all_download_and_extract|intros _].
    by apply all_print.
Qed.

Lemma http_requests_downloads (l : Log) : http_requests l = (downloads l).*1.
Proof.
  induction l as [|[e s] l IH]; [done|].
  unfold http_requests, downloads in *. cbn [omap list_omap fst snd].
  destruct e; cbn; by rewrite ?IH.
Qed.

Lemma main_downloads_shape argv fs :
  ∃ rest, downloads (log_of (main env argv fs)) = [] ∧ rest = []
          ∨ (downloads (log_of (main env argv fs))
             = (pulls_url (nth 1 argv ""), fs) :: rest
             ∧ (List.length rest ≤ 2)%nat).
Proof.
  destruct (decide (List.length argv = 3)) as [Hlen|Hlen].
  2:{ exists []. left. by destruct (main_wrong_count env argv fs Hlen). }
  destruct argv as [|a0 [|pr [|out [|? ?]]]]; try done. clear Hlen. cbn [nth].
  destruct (main_run env a0 pr out fs) as (rf & evs & _ & Hmain).
  destruct rf as [s|e].
  2:{ exists []. right. destruct Hmain as [_ ->]. split; [done|simpl; lia]. }
  cbn zeta in Hmain. destruct Hmain as (_ & _ & ->).
  eexists. right. split; [done|].
  pose proof (after_metadata_run env out s.1 s.2 fs) as Hafter. cbn zeta in Hafter.
  destruct (clean_fs _ fs) as [fs1|]; [|destruct Hafter as (_ & _ & ->); simpl; lia].
  destruct (clean_fs _ fs1) as [fs2|]; [|destruct Hafter as (_ & _ & ->); simpl; lia].
  destruct Hafter as (_ & _ & ->).
  destruct (materialize_run env s.1 s.2 (Fs.join out "before") (Fs.join out "after") fs2)
    as (l & -> & Hl).
  unfold log_of. cbn [snd]. rewrite Hl. destruct (result _); simpl; lia.
Qed.

End EveryRun.

(** X1.  In every run, whatever the arguments, the answers of the network
    and the state of the disk, at most three HTTP requests are made, each
    one carries the header [Accept: application/vnd.github.v3+json], and
    the first one, if any, asks for the pull request named by the first
    argument. *)
Theorem requests_bounded_and_versioned env argv fs :
  let r := main env argv fs in
  (∀ url accept, EvHttpGet url accept ∈ events r →
     accept = "application/vnd.github.v3+json")
  ∧ (List.length (http_requests (log_of r)) ≤ 3)%nat
  ∧ (∀ url, head (http_requests (log_of r)) = Some url →
       url = "https://api.github.com/repos/kstost/cokacdir/pulls/" +:+ nth 1 argv "").
Proof.
  intros r. subst r. split_and!.
  - intros url accept Hin. unfold events in Hin.
    apply list_elem_of_fmap in Hin as (ev & Hev & Hin).
    pose proof (all_main_headers env argv fs ev Hin) as H.
    rewrite <- Hev in H. exact H.
  - rewrite http_requests_downloads, length_fmap.
    destruct (main_downloads_shape env argv fs) as [rest [[-> _]|[-> Hlen]]];
      simpl; lia.
  - intros url. rewrite http_requests_downloads.
    destruct (main_downloads_shape env argv fs) as [rest [[-> _]|[-> Hlen]]];
      [done|]. cbn. by intros [= <-].
Qed.

Lemma requests_bounded_and_versioned_witness :
  "https://api.github.com/repos/kstost/cokacdir/pulls/42"
  = "https://api.github.com/repos/kstost/cokacdir/pulls/" +:+ "42".
Proof.
  destruct (requests_bounded_and_versioned Demo.env ["diffpr.py"; "42"; "out"] Demo.stale_fs)
    as (_ & _ & H).
  apply H. vm_compute. reflexivity.
Defined.

(** ** The file system stays well formed *)

Section WellFormed.

Implicit Types (fs : FS) (k q : Fs.Path).

Lemma wf_intro fs :
  (∀ k n q, fs !! k = Some n → q ∈ Fs.chain (Fs.parent k) →
     fs !! q = Some Fs.Directory) →
  Fs.wf fs.
Proof.
  intros H k n Hk. simpl. apply Forall_forall. intros q Hq. by eapply H.
Qed.

Lemma chain_parent_chain k q p :
  q ∈ Fs.chain k → p ∈ Fs.chain (Fs.parent q) → p ∈ Fs.chain k.
Proof.
  intros (H1 & _ & Hpre)%chain_elem (H2 & Hne & Hpre')%chain_parent_elem.
  apply chain_elem. split_and!; [congruence|done|by etrans].
Qed.

Lemma mkdirs_wf k fs fs' : Fs.wf fs → Fs.mkdirs k fs = Some fs' → Fs.wf fs'.
Proof.
  intros Hwf [Hlook _]%mkdirs_Some. apply wf_intro. intros q n p Hq Hp.
  rewrite Hlook. destruct (decide (p ∈ Fs.chain k)) as [|Hpk]; [done|].
  rewrite Hlook in Hq. destruct (decide (q ∈ Fs.chain k)) as [Hqk|Hqk].
  - destruct Hpk. by eapply chain_parent_chain.
  - by eapply wf_lookup.
Qed.

Lemma parent_not_self k q : q ∈ Fs.chain (Fs.parent k) → q ≠ k.
Proof.
  intros (_ & Hne & Hpre)%chain_elem ->. unfold Fs.parent in *. simpl in *.
  apply prefix_length in Hpre.
  destruct (decide (k.2 = [])) as [Hk|Hk]; [by rewrite Hk in Hne|].
  destruct (exists_last Hk) as (l & z & Hl). rewrite Hl in Hpre.
  rewrite removelast_last, length_app in Hpre. simpl in Hpre. lia.
Qed.

Lemma create_wf k n fs fs' :
  Fs.wf fs → dirs_exist (Fs.parent k) fs → Fs.create k n fs = Some fs' →
  Fs.wf fs'.
Proof.
  intros Hwf Hd [->|[-> Hnode]]%create_Some; [done|].
  apply wf_intro. intros q n' p Hq Hp.
  destruct (decide (k = p)) as [<-|Hkp].
  - exfalso. apply Hnode.
    pose proof (parent_not_self q k Hp) as Hne.
    rewrite lookup_insert_ne in Hq by done.
    pose proof Hp as (_ & Hk & _)%chain_elem.
    unfold Fs.node_at. destruct k.2; [done|]. by eapply wf_lookup.
  - rewrite lookup_insert_ne by done.
    destruct (decide (k = q)) as [<-|Hkq]; [by apply Hd|].
    rewrite lookup_insert_ne in Hq by done. by eapply wf_lookup.
Qed.

Lemma keeps_wf_tar_extract m dest : keeps Fs.wf (tar_extract m dest).
Proof.
  intros fs Hwf. unfold tar_extract, bind, emit, update, final_fs. cbn [fst snd].
  destruct (Fs.mkdirs _ fs) as [fs1|] eqn:H1; cbn [fst snd]; [|done].
  pose proof (mkdirs_wf _ _ _ Hwf H1) as Hwf1.
  destruct (Fs.create _ _ fs1) as [fs2|] eqn:H2; cbn [fst snd]; [|done].
  eapply create_wf; [exact Hwf1| |exact H2]. by eapply mkdirs_dirs_exist.
Qed.

Lemma keeps_wf_extract_members dest prefix ms :
  keeps Fs.wf (extract_members dest prefix ms).
Proof.
  revert prefix. induction ms as [|m ms IH]; intros prefix; [apply keeps_ret|].
  cbn [extract_members]. destruct (rejected _); [apply IH|].
  apply keeps_bind; [apply keeps_wf_tar_extract|intros _; apply IH].
Qed.

Lemma keeps_wf_download_and_extract env url dest :
  keeps Fs.wf (download_and_extract env url dest).
Proof.
  unfold download_and_extract, urlopen_read, os_makedirs.
  apply keeps_bind.
  { apply keeps_bind; [apply keeps_emit|intros _].
    destruct (urlopen env url); [apply keeps_ret|apply keeps_raise]. }
  intros data. apply keeps_bind.
  - apply keeps_bind; [apply keeps_emit|intros _].
    destruct (String.eqb dest ""); [apply keeps_raise|].
    apply keeps_update. intros fs fs' Hwf H. by eapply mkdirs_wf.
  - intros _. destruct (tar_getmembers env data); [|apply keeps_raise].
    apply keeps_wf_extract_members.
Qed.

Lemma keeps_wf_clean dirs : keeps Fs.wf (clean dirs).
Proof.
  unfold clean. apply keeps_for_each. intros d.
  apply keeps_bind; [by intros fs|intros present].
  destruct present; [|apply keeps_ret]. unfold shutil_rmtree.
  apply keeps_bind; [apply keeps_emit|intros _].
  apply keeps_update. intros fs fs' Hwf.
  destruct (Fs.node_at fs _) as [[]|]; intros [= <-]. by apply remove_tree_wf.
Qed.

Lemma keeps_fs_free {A : Type} (P : FS → Prop) (m : M A) rs : fs_free rs m → keeps P m.
Proof. intros (r & evs & Hrun & _) fs HP. by rewrite Hrun. Qed.

End WellFormed.

(** X2.  Every run leaves a well-formed file system well formed: whatever
    the program removes or extracts, and wherever it stops, each entry
    still lies in directories that exist.  The same holds for the archive
    materializer on its own. *)
Theorem main_keeps_wf env argv fs :
  Fs.wf fs →
  Fs.wf (final_fs (main env argv fs))
  ∧ ∀ url dest, Fs.wf (final_fs (download_and_extract env url dest fs)).
Proof.
  intros Hwf. split; [|intros url dest; by apply keeps_wf_download_and_extract].
  revert fs Hwf. change (keeps Fs.wf (main env argv)).
  unfold main. destruct (negb _).
  - destruct argv as [|argv0 ?]; [apply keeps_raise|].
    apply keeps_bind; [apply keeps_emit|intros _; apply keeps_raise].
  - apply keeps_bind; [apply keeps_emit|intros _].
    apply keeps_bind; [apply (keeps_fs_free _ _ _ (fs_free_fetch_json env _))|].
    intros pr_info.
    repeat (apply keeps_bind;
            [first [apply (keeps_fs_free _ _ _ (fs_free_getitem _ _))
                   |apply (keeps_fs_free _ _ _ (fs_free_slice10 _))]|intros ?]).
    apply keeps_bind; [apply keeps_emit|intros _].
    apply keeps_bind; [apply keeps_wf_clean|intros _].
    apply keeps_bind; [apply keeps_emit|intros _].
    apply keeps_bind; [apply keeps_wf_download_and_extract|intros _].
    apply keeps_bind; [apply keeps_emit|intros _].
    apply keeps_bind; [apply keeps_wf_download_and_extract|intros _].
    apply keeps_emit.
Qed.

Lemma main_keeps_wf_witness :
  Fs.wf (final_fs (main Demo.env ["diffpr.py"; "42"; "out"] Demo.stale_fs)).
Proof.
  apply (main_keeps_wf Demo.env ["diffpr.py"; "42"; "out"] Demo.stale_fs).
  apply (bool_decide_unpack _). vm_compute. reflexivity.
Defined.

(** ** Runs with well-formed metadata *)

Section WithMetadata.

Context (env : Env).

Implicit Types (fs : FS) (q : Fs.Path).

Lemma fetch_shas_strings pr b h fs :
  metadata env pr b h →
  fetch_shas env pr fs
  = (Ok (JStr b, JStr h), fs,
     [(EvStdout ("Fetching PR #" +:+ pr +:+ " info..."), fs);
      (EvHttpGet (pulls_url pr) accept_header, fs);
      (EvStdout ("Base SHA: " +:+ PyStr.slice_to 10 b
                 +:+ "  Head SHA: " +:+ PyStr.slice_to 10 h), fs)]).
Proof.
  intros (body & pr_info & Hu & Hj & Hb & Hh).
  unfold fetch_shas, fetch_json, urlopen_read, print, bind, emit, ret, raise.
  rewrite Hu, Hj. unfold sha_field, json_field in Hb, Hh.
  destruct pr_info as [| | | | |fields]; try done.
  unfold getitem, slice10, ret, raise.
  destruct (lookup_field "base" fields) as [[| | | | |bfields]|]; try done.
  destruct (lookup_field "head" fields) as [[| | | | |hfields]|]; try done.
  by rewrite Hb, Hh.
Qed.

Lemma main_with_metadata a0 pr out b h fs :
  metadata env pr b h →
  let r := after_metadata env out (JStr b) (JStr h) fs in
  main env [a0; pr; out] fs
  = (result r, final_fs r,
     [(EvStdout ("Fetching PR #" +:+ pr +:+ " info..."), fs);
      (EvHttpGet (pulls_url pr) accept_header, fs);
      (EvStdout ("Base SHA: " +:+ PyStr.slice_to 10 b
                 +:+ "  Head SHA: " +:+ PyStr.slice_to 10 h), fs)]
     ++ log_of r).
Proof.
  intros Hmeta r. rewrite main_phases. unfold bind.
  rewrite (fetch_shas_strings pr b h fs Hmeta). cbn [fst snd]. fold r.
  by destruct r as [[? ?] ?].
Qed.





End WithMetadata.



(** ** When cleaning or the second download fails *)

Section Stops.

Context (env : Env).

Implicit Types (fs : FS) (q : Fs.Path).



End Stops.







(** ** Members are extracted in order *)

Section InOrder.

Implicit Types (fs : FS) (k : Fs.Path).





End InOrder.



(** ** The result of a materialization depends on the destination only *)

Section Surroundings.

Implicit Types (fs : FS) (d k q : Fs.Path).





End Surroundings.



(** ** Rewritten names *)

Section Suffix.

#[local] Arguments String.append !_ _ / : simpl nomatch.

Lemma slice_from_suffix k s :
  ∃ pre, s = pre +:+ PyStr.slice_from k s
         ∧ String.length pre = Nat.min k (String.length s).
Proof.
  revert s. induction k as [|k IH]; intros s.
  - by exists "".
  - destruct s as [|c s]; [by exists ""|].
    destruct (IH s) as (pre & Hs & Hlen). exists (String c pre). simpl.
    split; [by rewrite <- Hs|by rewrite Hlen].
Qed.

Lemma startswith_true s p : PyStr.startswith s p = true → ∃ r, s = p +:+ r.
Proof.
  revert s. induction p as [|c p IH]; intros s H; simpl in *.
  - by exists s.
  - destruct s as [|d s]; [done|].
    apply andb_true_iff in H as [Hc Hs]. apply Ascii.eqb_eq in Hc as ->.
    destruct (IH _ Hs) as [r ->]. by exists r.
Qed.

End Suffix.

(** X9.  Rewriting a member name only cuts characters off its front: the
    rewritten name is a suffix of the original, and what is cut is the
    prefix and a separator when the name starts with them, and as many
    characters as the prefix has (or the whole name, if it is shorter)
    otherwise. *)
Theorem strip_is_suffix prefix n :
  ∃ cut, n = cut +:+ strip prefix n
         ∧ if PyStr.startswith n (prefix +:+ "/")
           then cut = prefix +:+ "/"
           else String.length cut = Nat.min (String.length prefix) (String.length n).
Proof.
  unfold strip. destruct (PyStr.startswith n (prefix +:+ "/")) eqn:Hs.
  - apply startswith_true in Hs as [r ->]. exists (prefix +:+ "/").
    split; [|done]. by rewrite <- length_app_sep, slice_from_app.
  - destruct (slice_from_suffix (String.length prefix) n) as (cut & Hn & Hlen).
    by exists cut.
Qed.

(** ** A run that succeeds *)

Section Success.

Context (env : Env).

Implicit Types (fs : FS) (l : Log).

Lemma stdout_lines_app l1 l2 : stdout_lines (l1 ++ l2) = stdout_lines l1 ++ stdout_lines l2.
Proof. apply omap_app. Qed.

Lemma http_requests_app l1 l2 :
  http_requests (l1 ++ l2) = http_requests l1 ++ http_requests l2.
Proof. apply omap_app. Qed.

Lemma stdout_lines_quiet l :
  (∀ ev, ev ∈ l → stdout_of ev.1 = None) → stdout_lines l = [].
Proof.
  induction l as [|[e f] l IH]; intros H; [done|].
  unfold stdout_lines in *. cbn [omap list_omap].
  pose proof (H (e, f) ltac:(left)) as Hev.
  destruct e; try done; cbn [fst]; apply IH; intros ev' Hev'; apply H; by right.
Qed.

Lemma dl_quiet url dest fs :
  stdout_lines (log_of (download_and_extract env url dest fs)) = [].
Proof.
  apply stdout_lines_quiet. intros ev Hev.
  by apply (all_download_and_extract env (λ e, stdout_of e = None) url dest
              eq_refl eq_refl (λ _, eq_refl) fs ev).
Qed.

Lemma dl_one_request url dest fs :
  http_requests (log_of (download_and_extract env url dest fs)) = [url].
Proof. by rewrite http_requests_downloads, downloads_dl. Qed.

Lemma clean_quiet dirs fs :
  stdout_lines (log_of (clean dirs fs)) = []
  ∧ http_requests (log_of (clean dirs fs)) = [].
Proof.
  pose proof (all_clean (λ e, stdout_of e = None ∧ http_of e = None) dirs
                ltac:(done) fs) as H.
  split.
  - apply stdout_lines_quiet. intros ev Hev. by apply H.
  - generalize dependent (log_of (clean dirs fs)). intros l H.
    induction l as [|[e f] l IH]; [done|].
    unfold http_requests in *. cbn [omap list_omap].
    destruct (H (e, f) ltac:(left)) as [_ Hev].
    destruct e; try done; cbn [fst]; apply IH; intros ev' Hev'; apply H; by right.
Qed.

Lemma bind_ok_log {A B : Type} (m : M A) (f : A → M B) fs (y : B) :
  result (bind m f fs) = Ok y →
  ∃ a, result (m fs) = Ok a
       ∧ result (f a (final_fs (m fs))) = Ok y
       ∧ log_of (bind m f fs) = log_of (m fs) ++ log_of (f a (final_fs (m fs))).
Proof.
  unfold bind, result, final_fs, log_of.
  destruct (m fs) as [[[a|e] fs1] l1]; cbn [fst snd]; [|done].
  intros H. exists a. revert H.
  destruct (f a fs1) as [[r fs2] l2]; cbn [fst snd]. by intros ->.
Qed.

Lemma after_metadata_ok out b h fs :
  result (after_metadata env out b h fs) = Ok tt →
  stdout_lines (log_of (after_metadata env out b h fs))
  = ["Downloading before (base)..."; "Downloading after (head)...";
     "Done. Files saved to " +:+ Fs.join out "before" +:+ "/ and "
     +:+ Fs.join out "after" +:+ "/"]
  ∧ http_requests (log_of (after_metadata env out b h fs))
    = [tarball_url env b; tarball_url env h].
Proof.
  unfold after_metadata, materialize. cbn zeta.
  set (bd := Fs.join out "before"). set (ad := Fs.join out "after").
  intros H.
  destruct (bind_ok_log _ _ _ _ H) as ([] & _ & H1 & ->).
  destruct (clean_quiet [bd; ad] fs) as [Hq1 Hq2].
  rewrite stdout_lines_app, http_requests_app, Hq1, Hq2. cbn [app]. clear Hq1 Hq2 H.
  generalize dependent (final_fs (clean [bd; ad] fs)). clear fs. intros fs H1.
  destruct (bind_ok_log _ _ _ _ H1) as ([] & _ & H2 & ->).
  change (final_fs (print _ fs)) with fs in *.
  destruct (bind_ok_log _ _ _ _ H2) as ([] & _ & H3 & ->).
  pose proof (dl_quiet (tarball_url env b) bd fs) as Hs1.
  pose proof (dl_one_request (tarball_url env b) bd fs) as Hh1.
  generalize dependent (final_fs (download_and_extract env (tarball_url env b) bd fs)).
  intros fs1 H3.
  destruct (bind_ok_log _ _ _ _ H3) as ([] & _ & H4 & ->).
  change (final_fs (print _ fs1)) with fs1 in *.
  destruct (bind_ok_log _ _ _ _ H4) as ([] & _ & H5 & ->).
  pose proof (dl_quiet (tarball_url env h) ad fs1) as Hs2.
  pose proof (dl_one_request (tarball_url env h) ad fs1) as Hh2.
  rewrite !stdout_lines_app, !http_requests_app, Hs1, Hh1, Hs2, Hh2.
  done.
Qed.

End Success.

(** X10.  A run that ends normally, on metadata with string commit
    identifiers, has made exactly three requests, in this order: the pull
    request, the tarball of the base commit, the tarball of the head
    commit, each tarball at the full identifier.  It has printed five
    lines, the second showing at most the first ten characters of each
    identifier, and the process exits with status 0. *)
Theorem successful_run env argv0 pr out b h fs :
  metadata env pr b h →
  result (main env [argv0; pr; out] fs) = Ok tt →
  let r := main env [argv0; pr; out] fs in
  http_requests (log_of r)
  = ["https://api.github.com/repos/kstost/cokacdir/pulls/" +:+ pr;
     "https://api.github.com/repos/kstost/cokacdir/tarball/" +:+ b;
     "https://api.github.com/repos/kstost/cokacdir/tarball/" +:+ h]
  ∧ stdout_lines (log_of r)
    = ["Fetching PR #" +:+ pr +:+ " info...";
       "Base SHA: " +:+ PyStr.slice_to 10 b +:+ "  Head SHA: " +:+ PyStr.slice_to 10 h;
       "Downloading before (base)...";
       "Downloading after (head)...";
       "Done. Files saved to " +:+ Fs.join out "before" +:+ "/ and "
       +:+ Fs.join out "after" +:+ "/"]
  ∧ (String.length (PyStr.slice_to 10 b) ≤ 10)%nat
  ∧ (run_script env [argv0; pr; out] fs).1.1 = 0%Z.
Proof.
  intros Hmeta Hok r. subst r.
  pose proof (main_with_metadata env argv0 pr out b h fs Hmeta) as Hmain.
  cbn zeta in Hmain.
  assert (result (after_metadata env out (JStr b) (JStr h) fs) = Ok tt) as Hok'.
  { by rewrite Hmain in Hok. }
  destruct (after_metadata_ok env out (JStr b) (JStr h) fs Hok') as [Hs Hh].
  split_and!.
  - rewrite Hmain. unfold log_of. cbn [snd].
    rewrite http_requests_app. unfold log_of in Hh. rewrite Hh. done.
  - rewrite Hmain. unfold log_of. cbn [snd].
    rewrite stdout_lines_app. unfold log_of in Hs. rewrite Hs. done.
  - clear. generalize 10. intros k. revert b.
    induction k as [|k IH]; intros b; [simpl; lia|].
    destruct b as [|c b]; simpl; [lia|]. specialize (IH b). lia.
  - unfold run_script. rewrite Hmain, Hok'. done.
Qed.

Lemma successful_run_witness :
  http_requests (log_of (main Demo.env ["diffpr.py"; "42"; "out"] Demo.stale_fs))
  = ["https://api.github.com/repos/kstost/cokacdir/pulls/" +:+ "42";
     "https://api.github.com/repos/kstost/cokacdir/tarball/" +:+ Demo.base_sha;
     "https://api.github.com/repos/kstost/cokacdir/tarball/" +:+ Demo.head_sha].
Proof.
  apply (successful_run Demo.env "diffpr.py" "42" "out" Demo.base_sha Demo.head_sha
           Demo.stale_fs).
  - exists [x01], Demo.pr_info. by split_and!.
  - vm_compute. reflexivity.
Defined.

(** X11.  When [base.sha] and [head.sha] are both present but the slice of
    line 62 meets a value that supports no subscript (null, a boolean or a
    number), either as [base.sha], or as [head.sha] after a [base.sha] that
    was sliced, the run ends with [TypeError] after the metadata request
    alone, before anything is removed from or written to the file
    system. *)
Theorem sha_not_sliceable env argv0 pr out body pr_info v w fs :
  urlopen env (pulls_url pr) = Some body →
  json_loads env body = Some pr_info →
  sha_field pr_info "base" = Some v →
  sha_field pr_info "head" = Some w →
  scalar v = true ∨ (sliceable v = true ∧ scalar w = true) →
  main env [argv0; pr; out] fs
  = (Raise TypeError, fs,
     [(EvStdout ("Fetching PR #" +:+ pr +:+ " info..."), fs);
      (EvHttpGet (pulls_url pr) accept_header, fs)]).
Proof.
  intros Hu Hj Hb Hh Hbad. apply main_fetch_failed.
  unfold fetch_shas, fetch_json, urlopen_read, print, bind, emit, ret, raise.
  rewrite Hu, Hj. unfold sha_field, json_field in Hb, Hh.
  destruct pr_info as [| | | | |fields]; try done.
  unfold getitem, ret, raise.
  destruct (lookup_field "base" fields) as [[| | | | |bfields]|]; try done.
  destruct (lookup_field "head" fields) as [[| | | | |hfields]|]; try done.
  rewrite Hb, Hh. unfold slice10, ret, raise.
  destruct Hbad as [Hv|[Hv Hw]]; destruct v; try done; destruct w; done.
Qed.

Lemma sha_not_sliceable_witness :
  main Demo2.env ["diffpr.py"; "10"; "out"] Demo.stale_fs
  = (Raise TypeError, Demo.stale_fs,
     [(EvStdout ("Fetching PR #" +:+ "10" +:+ " info..."), Demo.stale_fs);
      (EvHttpGet (pulls_url "10") accept_header, Demo.stale_fs)]).
Proof.
  apply (sha_not_sliceable Demo2.env "diffpr.py" "10" "out" [x06]
           (JObj [("base", JObj [("sha", JNum "7")]);
                  ("head", JObj [("sha", JStr Demo.head_sha)])])
           (JNum "7") (JStr Demo.head_sha)); try reflexivity.
  by left.
Defined.

(** ** What the materializer never does *)

Section Growing.

Implicit Types (fs : FS) (k q : Fs.Path).






End Growing.


(** ** An archive with nothing to extract *)

Section Nothing.

Context (env : Env).

Lemma for_each_extract_log_nil dest ms fs :
  log_of (for_each ms (λ m, tar_extract m dest) fs) = [] → ms = [].
Proof.
  destruct ms as [|m ms]; [done|]. cbn [for_each]. unfold bind.
  pose proof (tar_extract_log m dest fs) as Hlog.
  destruct (tar_extract m dest fs) as [[[[]|e] fs1] l1];
    unfold log_of in *; cbn [snd] in *; subst l1; [|done].
  by destruct (for_each ms _ fs1) as [[r2 fs2] l2].
Qed.

End Nothing.

(** X13.  Once the archive has been downloaded and read and the
    destination directory made, the run of the materializer consists of
    the request and the [makedirs] call alone, ends normally and leaves
    the destination as [makedirs] left it exactly when the filter of line
    39 passes over every member: an empty archive, or one that holds only
    its wrapper directory, is not an error. *)
Theorem nothing_to_extract env url dest data ms fs fs1 :
  urlopen env url = Some data →
  tar_getmembers env data = Some ms →
  dest ≠ "" →
  Fs.mkdirs (Fs.resolve dest) fs = Some fs1 →
  (∀ m, m ∈ ms → rejected (strip (wrapper_prefix ms) (name m)) = true)
  ↔ download_and_extract env url dest fs
    = (Ok tt, fs1, [(EvHttpGet url accept_header, fs); (EvMakedirs dest, fs)]).
Proof.
  intros Hu Ht Hd%String.eqb_neq Hmk.
  rewrite download_and_extract_run. cbn zeta. rewrite Hu, Hd, Hmk, Ht.
  rewrite extract_members_none.
  set (p := wrapper_prefix ms).
  assert ((∀ m, m ∈ ms → rejected (strip p (name m)) = true) ↔ survivors p ms = [])
    as ->.
  { split.
    - intros Hall. destruct (survivors p ms) as [|m' l] eqn:Hs; [done|].
      assert (m' ∈ survivors p ms) as (m & Hm & _ & Hacc)%survivors_elem
        by (rewrite Hs; left).
      rewrite (Hall m Hm) in Hacc. done.
    - intros Hs m Hm. destruct (rejected (strip p (name m))) eqn:Hr; [done|].
      assert (rewritten p m ∈ survivors p ms) as Hin
        by (apply survivors_elem; by exists m).
      rewrite Hs in Hin. by apply elem_of_nil in Hin. }
  split.
  - by intros ->.
  - intros [= _ _ Hlog]. by apply for_each_extract_log_nil in Hlog.
Qed.

Lemma nothing_to_extract_witness :
  download_and_extract Demo2.env Demo2.wrapper_url "out" ∅
  = (Ok tt, {[ (false, ["out"]) := Fs.Directory ]},
     [(EvHttpGet Demo2.wrapper_url accept_header, ∅); (EvMakedirs "out", ∅)]).
Proof.
  apply (nothing_to_extract Demo2.env Demo2.wrapper_url "out" [x07] Demo2.wrapper_only ∅
           {[ (false, ["out"]) := Fs.Directory ]}); try reflexivity; [done|].
  intros m Hm. unfold Demo2.wrapper_only in Hm.
  repeat (apply elem_of_cons in Hm as [->|Hm]; [reflexivity|]).
  by apply elem_of_nil in Hm.
Defined.
